(** * Observability Agent extension: panel registry, ask/answer exchange, JSON transport

    A shallow embedding of [extension/src/extension.ts]: the two panel
    classes ([ArchDriftPanel], [ObservabilityPanel]), the message handler of
    the chat webview, [handleAsk] and the [postJson] helper.

    The JavaScript runtime and the VS Code host are not part of the
    repository.  What the code asks of them is kept abstract ([Host]) or
    recorded as an event in the [world]; a small reference host is given at
    the end of the definitions so that every definition can be run. *)

From Stdlib Require Import String Ascii List Arith Lia DecimalString.
From stdpp Require Import base strings gmap list.

Local Open Scope string_scope.
Set Warnings "-register-all".

(** ** JavaScript values *)

Section Values.
Variable number : Type.

(** What [JSON.parse] can return, and what a webview message can carry in
    a field.  An object keeps its own properties as an association list;
    the first binding of a key is the one a read sees. *)
Inductive jsval : Type :=
| VNull
| VBool (b : bool)
| VNum (n : number)
| VStr (s : string)
| VArr (items : list jsval)
| VObj (props : list (string * jsval)).

Fixpoint own_prop (props : list (string * jsval)) (k : string) : option jsval :=
  match props with
  | [] => None
  | (k', v) :: rest => if String.eqb k' k then Some v else own_prop rest k
  end.

(** [x ?? d]: only [null] and [undefined] are replaced. *)
Definition nullish_or (x : option jsval) (d : jsval) : jsval :=
  match x with
  | None | Some VNull => d
  | Some v => v
  end.
End Values.

Arguments VNull {number}.
Arguments VBool {number} b.
Arguments VNum {number} n.
Arguments VStr {number} s.
Arguments VArr {number} items.
Arguments VObj {number} props.
Arguments own_prop {number} props k.
Arguments nullish_or {number} x d.

(** ** Thrown values *)

(** Everything this program throws or rejects with is an [Error] instance;
    [err_message] is [None] for one whose [message] is [undefined]. *)
Record js_error := MkError { err_name : string; err_message : option string }.

(** [String(err)], as [Error.prototype.toString] computes it. *)
Definition String_of_error (err : js_error) : string :=
  let msg := default EmptyString (err_message err) in
  if String.eqb (err_name err) EmptyString then msg
  else if String.eqb msg EmptyString then err_name err
  else err_name err ++ ": " ++ msg.

(** [err?.message ?? String(err)] *)
Definition cause_text (err : js_error) : string :=
  match err_message err with
  | Some m => m
  | None => String_of_error err
  end.

(** [new Error(msg)] *)
Definition new_Error (msg : string) : js_error := MkError "Error" (Some msg).

(** Reading a property of [null] (the text is V8's, the engine of the
    extension host). *)
Definition null_read_error (prop : string) : js_error :=
  MkError "TypeError" (Some ("Cannot read properties of null (reading '" ++ prop ++ "')")).

Definition not_a_function_error (what : string) : js_error :=
  MkError "TypeError" (Some (what ++ " is not a function")).

Definition undefined_read_error (prop : string) : js_error :=
  MkError "TypeError" (Some ("Cannot read properties of undefined (reading '" ++ prop ++ "')")).

(** A JavaScript evaluation either returns or throws. *)
Inductive completion (A : Type) :=
| Normal (a : A)
| Throw (err : js_error).
Arguments Normal {A} a.
Arguments Throw {A} err.

(** ** The built-ins of the runtime and of the VS Code API that compute values *)

Class Host := {
  number : Type;                                  (* JavaScript numbers *)
  number_truthy : number -> bool;                 (* false for 0, -0 and NaN *)
  trim : string -> string;                        (* String.prototype.trim *)
  toLowerCase : string -> string;                 (* String.prototype.toLowerCase *)
  JSON_parse : string -> js_error + jsval number; (* JSON.parse: throws or returns *)
  uri : Type;                                     (* vscode.Uri *)
  Uri_parse : jsval number -> js_error + uri      (* vscode.Uri.parse: throws or returns *)
}.

(** ** Strings *)

(** [s.includes(needle)] *)
Fixpoint includes (s needle : string) : bool :=
  String.prefix needle s ||
  match s with
  | EmptyString => false
  | String _ rest => includes rest needle
  end.

(** A string is falsy exactly when it is empty. *)
Definition string_truthy (s : string) : bool :=
  match s with
  | EmptyString => false
  | String _ _ => true
  end.

(** [`${n}`] for a non-negative integer. *)
Definition decimal_of_nat (n : nat) : string := NilZero.string_of_uint (Nat.to_uint n).

(** Accumulating the body: [data = ''] and then [data += chunk] per chunk. *)
Definition collect (chunks : list string) : string :=
  fold_left String.append chunks EmptyString.

(** ** The world the extension acts on *)

(** What an [onDidDispose] listener of a webview panel does when it fires. *)
Inductive listener :=
| ChatDisposed                       (* () => this.dispose() *)
| DriftDisposed (panelKey : string). (* () => ArchDriftPanel.panels.delete(panelKey) *)

(** A webview panel the host keeps open. *)
Record webview_panel := MkPanel {
  viewType : string;
  title : string;
  onDidDispose : list listener
}.

Section WithHost.
Context `{Host}.

Local Abbreviation jsv := (jsval number).

(** Messages posted to the chat webview. *)
Inductive out_msg :=
| MStatus (message : string)
| MAnswer (question : string) (answer score trace mode drift_data : jsv)
| MError (question message : string).

(** Calls into the host and the network, in the order they are made.
    [console.log] and [console.error] output is not recorded. *)
Inductive event :=
| PostMessage (panel : nat) (m : out_msg)          (* panel.webview.postMessage(m) *)
| HttpRequest (method url : string) (body : jsv)   (* request written and ended *)
| OpenExternal (target : uri)                      (* vscode.env.openExternal(target) *)
| CreateWebviewPanel (panel : nat) (viewType title : string)
| Reveal (panel : nat).

(** Panels are identified by the order in which the host created them, so
    two calls of [createWebviewPanel] never return the same object. *)
Record world := MkWorld {
  next_panel : nat;                 (* panels created by the host so far *)
  live : gmap nat webview_panel;    (* created and not yet disposed *)
  currentPanel : option nat;        (* ObservabilityPanel.currentPanel; a chat
                                       controller is named by its _panel *)
  panels : gmap string nat;         (* ArchDriftPanel.panels *)
  log : list event
}.

Definition init : world := MkWorld 0 ∅ None ∅ [].

Definition emit (e : event) (w : world) : world :=
  MkWorld (next_panel w) (live w) (currentPanel w) (panels w) (log w ++ [e]).

Definition set_currentPanel (c : option nat) (w : world) : world :=
  MkWorld (next_panel w) (live w) c (panels w) (log w).

Definition set_panels (m : gmap string nat) (w : world) : world :=
  MkWorld (next_panel w) (live w) (currentPanel w) m (log w).

(** ** Computations that may throw *)

(** Effects made before a throw stay made. *)
Definition M (A : Type) : Type := world -> completion A * world.

Definition ret {A} (a : A) : M A := fun w => (Normal a, w).

Definition bind {A B} (c : M A) (k : A -> M B) : M B :=
  fun w =>
    match c w with
    | (Normal a, w') => k a w'
    | (Throw err, w') => (Throw err, w')
    end.

Definition try_catch {A} (body : M A) (handler : js_error -> M A) : M A :=
  fun w =>
    match body w with
    | (Normal a, w') => (Normal a, w')
    | (Throw err, w') => handler err w'
    end.

Definition lift {A} (c : completion A) : M A := fun w => (c, w).

(** The result of a built-in that throws or returns. *)
Definition call {A} (r : js_error + A) : completion A :=
  match r with
  | inr a => Normal a
  | inl err => Throw err
  end.

Definition act (f : world -> world) : M unit := fun w => (Normal tt, f w).

Local Notation "'let*' x ':=' c 'in' k" := (bind c (fun x => k))
  (at level 10, x name, c at level 100, k at level 200).
Local Notation "c ';;' k" := (bind c (fun _ => k))
  (at level 100, k at level 200, right associativity).

(** ** Host calls *)

(** The host calls below return normally: [postMessage], [reveal],
    [createWebviewPanel] and [openExternal] are taken not to throw. *)

Definition postMessage (panel : nat) (m : out_msg) : M unit :=
  act (emit (PostMessage panel m)).

Definition reveal (panel : nat) : M unit :=
  act (emit (Reveal panel)).

Definition openExternal (target : uri) : M unit :=
  act (emit (OpenExternal target)).

(** [vscode.window.createWebviewPanel]: a new panel object, open from now on.
    The listeners are the ones the caller registers on it right after. *)
Definition createWebviewPanel (vt ttl : string) (ls : list listener) : M nat :=
  fun w =>
    let p := next_panel w in
    (Normal p,
     MkWorld (S p) (<[p := MkPanel vt ttl ls]> (live w)) (currentPanel w) (panels w)
             (log w ++ [CreateWebviewPanel p vt ttl])).

(** The effect of one [onDidDispose] listener.  When the chat listener runs
    the panel is already disposed, so the [this._panel.dispose()] inside
    [ObservabilityPanel.dispose] returns at once and only the assignment to
    [currentPanel] is left (the listeners kept in [_disposables] are then
    released). *)
Definition run_listener (w : world) (l : listener) : world :=
  match l with
  | ChatDisposed => set_currentPanel None w
  | DriftDisposed panelKey => set_panels (delete panelKey (panels w)) w
  end.

(** [panel.dispose()], also what the host does when the user closes the
    panel: nothing for a panel already disposed; otherwise the panel is gone
    and its [onDidDispose] listeners fire. *)
Definition WebviewPanel_dispose (p : nat) (w : world) : world :=
  match live w !! p with
  | None => w
  | Some info =>
      fold_left run_listener (onDidDispose info)
        (MkWorld (next_panel w) (delete p (live w)) (currentPanel w) (panels w) (log w))
  end.

(** ** class ArchDriftPanel *)

Definition panelKey : string := "archdrift-main".

(** [ArchDriftPanel.createOrShow()].  The map only ever holds panel objects,
    which are truthy, so [has] followed by a truthy [get] is a successful
    lookup.  The markup written to [panel.webview.html] is not modelled. *)
Definition ArchDriftPanel_createOrShow : M unit :=
  fun w =>
    match panels w !! panelKey with
    | Some existingPanel => reveal existingPanel w
    | None =>
        (let* panel := createWebviewPanel "archDriftViewer" "Architecture Drift"
                         [DriftDisposed panelKey] in
         act (fun w' => set_panels (<[panelKey := panel]> (panels w')) w')) w
    end.

(** ** class ObservabilityPanel *)

(** [ObservabilityPanel.createOrShow(extensionUri)]; the constructor
    registers [() => this.dispose()] on the new panel, and the controller
    made there is named by that panel.  The view column is not modelled. *)
Definition ObservabilityPanel_createOrShow : M unit :=
  fun w =>
    match currentPanel w with
    | Some cur => reveal cur w
    | None =>
        (let* panel := createWebviewPanel "observabilityAgent" "Observability Agent"
                         [ChatDisposed] in
         act (set_currentPanel (Some panel))) w
    end.

(** [dispose()] of the controller of panel [self]. *)
Definition ObservabilityPanel_dispose (self : nat) : M unit :=
  act (set_currentPanel None) ;;
  act (WebviewPanel_dispose self).

(** ** postJson *)

(** What the network does with a request that was sent. *)
Inductive net_outcome :=
| RequestError (err : js_error)                              (* 'error' on the request *)
| Response (statusCode : option nat) (chunks : list string). (* 'data' events, then 'end' *)

(** [res.statusCode && res.statusCode >= 400] *)
Definition is_http_error (statusCode : option nat) : bool :=
  match statusCode with
  | None => false
  | Some c => negb (c =? 0)%nat && (400 <=? c)%nat
  end.

(** The ['end'] handler: [Throw] stands for [reject], [Normal] for [resolve]. *)
Definition on_end (statusCode : option nat) (data : string) : completion jsv :=
  if is_http_error statusCode then
    Throw (new_Error ("HTTP error! status: " ++ decimal_of_nat (default 0 statusCode)))
  else
    call (if string_truthy data then JSON_parse data else inr (VObj [])).

(** How the promise returned by [postJson] settles. *)
Definition postJson_settle (net : net_outcome) : completion jsv :=
  match net with
  | RequestError err => Throw err
  | Response statusCode chunks => on_end statusCode (collect chunks)
  end.

(** The synchronous part of [postJson]: the request goes out.  The URL is
    the constant below, which [new URL] accepts; headers are not recorded. *)
Definition postJson_send (urlString : string) (body : jsv) : M unit :=
  act (emit (HttpRequest "POST" urlString body)).

(** ** handleAsk *)

Definition endpoint : string := "http://localhost:8000/ask".

Definition newline : string := String (ascii_of_nat 10) EmptyString.

Definition unreachable_prefix : string :=
  "Could not reach the observability service at http://localhost:8000/ask. Is it running?"
  ++ newline ++ newline.

(** [data.k] for the five names read from a response ([mode], [answer],
    [score], [trace], [drift_data]); no built-in prototype defines them, so on
    anything but an object with that own property the read gives
    [undefined], and on [null] it throws. *)
Definition get (data : jsv) (k : string) : completion (option jsv) :=
  match data with
  | VNull => Throw (null_read_error k)
  | VObj props => Normal (own_prop props k)
  | _ => Normal None
  end.

(** [data.mode === 'arch_drift' ||
     (typeof data.answer === 'string' && data.answer.toLowerCase().includes('archdrift ui'))] *)
Definition isArchDrift (mode answer : option jsv) : bool :=
  match mode with
  | Some (VStr m) => String.eqb m "arch_drift"
  | _ => false
  end
  ||
  match answer with
  | Some (VStr a) => includes (toLowerCase a) "archdrift ui"
  | _ => false
  end.

(** [postJson(urlString, body)] awaited: the request goes out, and the
    caller goes on with the parsed reply or with the rejection thrown. *)
Definition postJson (urlString : string) (body : jsv) (net : net_outcome) : M jsv :=
  postJson_send urlString body ;;
  lift (postJson_settle net).

(** [handleAsk(question)], run from the call to its end; [net] is what the
    network does with the request. *)
Definition handleAsk (self : nat) (question : string) (net : net_outcome) : M unit :=
  let trimmedQuestion := trim question in
  if negb (string_truthy trimmedQuestion) then ret tt
  else
    postMessage self (MStatus "Thinking...") ;;
    try_catch
      (let* data := postJson endpoint (VObj [("question", VStr trimmedQuestion)]) net in
       let* mode := lift (get data "mode") in
       let* answer := lift (get data "answer") in
       if isArchDrift mode answer then ArchDriftPanel_createOrShow
       else
         let* score := lift (get data "score") in
         let* trace := lift (get data "trace") in
         let* drift_data := lift (get data "drift_data") in
         postMessage self
           (MAnswer trimmedQuestion (nullish_or answer (VStr EmptyString))
              (nullish_or score VNull) (nullish_or trace VNull) (nullish_or mode VNull)
              (nullish_or drift_data VNull)))
      (fun err =>
         postMessage self (MError trimmedQuestion (unreachable_prefix ++ cause_text err))).

(** The same function in the two halves the [await] cuts it into, for
    exchanges that overlap.  The first half returns the trimmed question when
    a request is now in flight. *)
Definition handleAsk_begin (self : nat) (question : string) : M (option string) :=
  let trimmedQuestion := trim question in
  if negb (string_truthy trimmedQuestion) then ret None
  else
    postMessage self (MStatus "Thinking...") ;;
    postJson_send endpoint (VObj [("question", VStr trimmedQuestion)]) ;;
    ret (Some trimmedQuestion).

(** The second half, entered when the promise has settled. *)
Definition handleAsk_resume (self : nat) (trimmedQuestion : string)
    (settled : completion jsv) : M unit :=
  try_catch
    (let* data := lift settled in
     let* mode := lift (get data "mode") in
     let* answer := lift (get data "answer") in
     if isArchDrift mode answer then ArchDriftPanel_createOrShow
     else
       let* score := lift (get data "score") in
       let* trace := lift (get data "trace") in
       let* drift_data := lift (get data "drift_data") in
       postMessage self
         (MAnswer trimmedQuestion (nullish_or answer (VStr EmptyString))
            (nullish_or score VNull) (nullish_or trace VNull) (nullish_or mode VNull)
            (nullish_or drift_data VNull)))
    (fun err =>
       postMessage self (MError trimmedQuestion (unreachable_prefix ++ cause_text err))).

(** ** Messages from the webview *)

(** A message object; a field is [None] when the object does not have it. *)
Record inbound := MkInbound {
  msg_type : option jsv;
  msg_text : option jsv;
  msg_url : option jsv
}.

(** Truthiness of a value; a missing field ([undefined]) is falsy as well. *)
Definition truthy (v : jsv) : bool :=
  match v with
  | VNull => false
  | VBool b => b
  | VNum n => number_truthy n
  | VStr s => string_truthy s
  | VArr _ | VObj _ => true
  end.

(** [question.trim()] on whatever [message.text] is. *)
Definition as_question (text : option jsv) : completion string :=
  match text with
  | Some (VStr q) => Normal q
  | None => Throw (undefined_read_error "trim")
  | Some VNull => Throw (null_read_error "trim")
  | Some _ => Throw (not_a_function_error "question.trim")
  end.

(** The listener given to [onDidReceiveMessage]; [net] is what the network
    will do if this message leads to a request. *)
Definition onDidReceiveMessage (self : nat) (message : inbound) (net : net_outcome) : M unit :=
  match msg_type message with
  | Some (VStr t) =>
      if String.eqb t "ask" then
        let* question := lift (as_question (msg_text message)) in
        handleAsk self question net
      else if String.eqb t "openArchDrift" then
        match msg_url message with
        | Some url =>
            if truthy url then
              let* target := lift (call (Uri_parse url)) in
              openExternal target
            else ret tt
        | None => ret tt
        end
      else ret tt
  | _ => ret tt
  end.

(** ** The registry seen by kind *)

Inductive kind := Chat | Visualization.

Definition showOrReveal (k : kind) : M unit :=
  match k with
  | Chat => ObservabilityPanel_createOrShow
  | Visualization => ArchDriftPanel_createOrShow
  end.

Definition registered (k : kind) (w : world) : option nat :=
  match k with
  | Chat => currentPanel w
  | Visualization => panels w !! panelKey
  end.

Definition kind_viewType (k : kind) : string :=
  match k with
  | Chat => "observabilityAgent"
  | Visualization => "archDriftViewer"
  end.

(** [data.k] where the read does not throw. *)
Definition read (data : jsv) (k : string) : option jsv :=
  match get data k with
  | Normal x => x
  | Throw _ => None
  end.

(** The message posted for a response that is not a redirect. *)
Definition answer_message (trimmedQuestion : string) (data : jsv) : out_msg :=
  MAnswer trimmedQuestion
    (nullish_or (read data "answer") (VStr EmptyString))
    (nullish_or (read data "score") VNull)
    (nullish_or (read data "trace") VNull)
    (nullish_or (read data "mode") VNull)
    (nullish_or (read data "drift_data") VNull).

Definition error_message (trimmedQuestion : string) (err : js_error) : out_msg :=
  MError trimmedQuestion (unreachable_prefix ++ cause_text err).

Definition request_event (trimmedQuestion : string) : event :=
  HttpRequest "POST" endpoint (VObj [("question", VStr trimmedQuestion)]).

(** The event by which the visualization panel is shown: an existing one is
    revealed, or a new one is created. *)
Definition shows_visualization (p : nat) (e : event) : Prop :=
  e = Reveal p \/ e = CreateWebviewPanel p "archDriftViewer" "Architecture Drift".

Definition is_status (e : event) : bool :=
  match e with
  | PostMessage _ (MStatus _) => true
  | _ => false
  end.

(** An answer or an error posted to the chat webview. *)
Definition is_terminal (e : event) : bool :=
  match e with
  | PostMessage _ (MAnswer _ _ _ _ _ _) | PostMessage _ (MError _ _) => true
  | _ => false
  end.

(** The panels the two classes create. *)
Definition chat_panel : webview_panel :=
  MkPanel "observabilityAgent" "Observability Agent" [ChatDisposed].

Definition drift_panel : webview_panel :=
  MkPanel "archDriftViewer" "Architecture Drift" [DriftDisposed panelKey].

(** Registry and host agree: every open panel is the registered one of its
    class, every registered panel is open, and no panel is newer than the
    host's count. *)
Record wf (w : world) : Prop := MkWf {
  wf_fresh : forall p info, live w !! p = Some info -> p < next_panel w;
  wf_live : forall p info, live w !! p = Some info ->
      (info = chat_panel /\ currentPanel w = Some p) \/
      (info = drift_panel /\ panels w !! panelKey = Some p);
  wf_chat : forall p, currentPanel w = Some p -> live w !! p = Some chat_panel;
  wf_drift : forall key p, panels w !! key = Some p ->
      key = panelKey /\ live w !! p = Some drift_panel
}.

(** What can happen, one event of the host at a time: the open-chat
    command, the user closing a panel, a message from the chat webview
    handled to its end, and, for exchanges that overlap, an ask up to its
    [await] and a pending request settling (possibly after its panel was
    closed). *)
Inductive step : world -> world -> Prop :=
| step_command w :
    step w (snd (ObservabilityPanel_createOrShow w))
| step_close w p :
    step w (WebviewPanel_dispose p w)
| step_message w self message net :
    currentPanel w = Some self ->
    step w (snd (onDidReceiveMessage self message net w))
| step_ask w self question :
    currentPanel w = Some self ->
    step w (snd (handleAsk_begin self question w))
| step_settle w self trimmedQuestion settled :
    step w (snd (handleAsk_resume self trimmedQuestion settled w)).

Definition reachable (w : world) : Prop := rtc step init w.

End WithHost.

(** ** A reference host *)

(** An executable host for plain-ASCII text, used to run the definitions
    above on concrete inputs.  Numbers are kept as the text of their JSON
    literal, [trim] strips the ASCII white space, [toLowerCase] maps [A-Z],
    [JSON.parse] follows the JSON grammar (the error texts stand in for the
    engine's), and [Uri.parse] accepts every input. *)
Module Reference.

Local Open Scope char_scope.

Definition is_space (c : ascii) : bool :=
  let n := nat_of_ascii c in
  ((9 <=? n) && (n <=? 13) || (n =? 32))%nat.

Fixpoint trim_start (s : string) : string :=
  match s with
  | EmptyString => EmptyString
  | String c rest => if is_space c then trim_start rest else s
  end.

Fixpoint trim_end (s : string) : string :=
  match s with
  | EmptyString => EmptyString
  | String c rest =>
      match trim_end rest with
      | EmptyString => if is_space c then EmptyString else String c EmptyString
      | kept => String c kept
      end
  end.

Definition ascii_trim (s : string) : string := trim_end (trim_start s).

Definition lower (c : ascii) : ascii :=
  let n := nat_of_ascii c in
  if ((65 <=? n) && (n <=? 90))%nat then ascii_of_nat (n + 32) else c.

Fixpoint ascii_toLowerCase (s : string) : string :=
  match s with
  | EmptyString => EmptyString
  | String c rest => String (lower c) (ascii_toLowerCase rest)
  end.

(** *** JSON text *)

Definition is_json_space (c : ascii) : bool :=
  let n := nat_of_ascii c in
  ((n =? 32) || (n =? 9) || (n =? 10) || (n =? 13))%nat.

Fixpoint skip_ws (s : string) : string :=
  match s with
  | EmptyString => EmptyString
  | String c rest => if is_json_space c then skip_ws rest else s
  end.

Definition is_digit (c : ascii) : bool :=
  let n := nat_of_ascii c in ((48 <=? n) && (n <=? 57))%nat.

Fixpoint take_digits (s : string) : string * string :=
  match s with
  | EmptyString => (EmptyString, EmptyString)
  | String c rest =>
      if is_digit c then let (ds, r) := take_digits rest in (String c ds, r)
      else (EmptyString, s)
  end.

Definition hex_value (c : ascii) : option nat :=
  let n := nat_of_ascii c in
  if ((48 <=? n) && (n <=? 57))%nat then Some (n - 48)
  else if ((65 <=? n) && (n <=? 70))%nat then Some (n - 55)
  else if ((97 <=? n) && (n <=? 102))%nat then Some (n - 87)
  else None.

(** A code point of the basic plane, written in UTF-8. *)
Definition utf8 (n : nat) : string :=
  if (n <? 128)%nat then String (ascii_of_nat n) EmptyString
  else if (n <? 2048)%nat then
    String (ascii_of_nat (192 + n / 64)) (String (ascii_of_nat (128 + n mod 64)) EmptyString)
  else
    String (ascii_of_nat (224 + n / 4096))
      (String (ascii_of_nat (128 + (n / 64) mod 64))
         (String (ascii_of_nat (128 + n mod 64)) EmptyString)).

Definition quote : ascii := ascii_of_nat 34.

Definition escape (c : ascii) : option ascii :=
  if Ascii.eqb c quote then Some quote
  else if Ascii.eqb c "\" then Some "\"
  else if Ascii.eqb c "/" then Some "/"
  else if Ascii.eqb c "b" then Some (ascii_of_nat 8)
  else if Ascii.eqb c "f" then Some (ascii_of_nat 12)
  else if Ascii.eqb c "n" then Some (ascii_of_nat 10)
  else if Ascii.eqb c "r" then Some (ascii_of_nat 13)
  else if Ascii.eqb c "t" then Some (ascii_of_nat 9)
  else None.

(** The characters of a string literal after its opening quote. *)
Fixpoint string_body (s : string) : option (string * string) :=
  match s with
  | EmptyString => None
  | String c rest =>
      if Ascii.eqb c quote then Some (EmptyString, rest)
      else if Ascii.eqb c "\" then
        match rest with
        | String "u" (String h1 (String h2 (String h3 (String h4 rest')))) =>
            match hex_value h1, hex_value h2, hex_value h3, hex_value h4, string_body rest' with
            | Some a, Some b, Some c', Some d, Some (body, after) =>
                Some (String.append (utf8 (((a * 16 + b) * 16 + c') * 16 + d)) body, after)
            | _, _, _, _, _ => None
            end
        | String e rest' =>
            match escape e, string_body rest' with
            | Some c', Some (body, after) => Some (String c' body, after)
            | _, _ => None
            end
        | EmptyString => None
        end
      else if (nat_of_ascii c <? 32)%nat then None
      else
        match string_body rest with
        | Some (body, after) => Some (String c body, after)
        | None => None
        end
  end.

(** A JSON number: optional minus, integer part without a leading zero,
    optional fraction, optional exponent. *)
Definition number_literal (s : string) : option (string * string) :=
  let (sign, s1) :=
    match s with
    | String "-" r => (String "-" EmptyString, r)
    | _ => (EmptyString, s)
    end in
  let (int, s2) := take_digits s1 in
  match int with
  | EmptyString => None
  | String "0" (String _ _) => None
  | _ =>
      let frac :=
        match s2 with
        | String "." r =>
            let (ds, r') := take_digits r in
            match ds with
            | EmptyString => None
            | _ => Some (String "." ds, r')
            end
        | _ => Some (EmptyString, s2)
        end in
      match frac with
      | None => None
      | Some (fr, s3) =>
          let exp :=
            match s3 with
            | String e r =>
                if Ascii.eqb e "e" || Ascii.eqb e "E" then
                  let (sg, r1) :=
                    match r with
                    | String "+" r' => (String "+" EmptyString, r')
                    | String "-" r' => (String "-" EmptyString, r')
                    | _ => (EmptyString, r)
                    end in
                  let (ds, r2) := take_digits r1 in
                  match ds with
                  | EmptyString => None
                  | _ => Some (String e (String.append sg ds), r2)
                  end
                else Some (EmptyString, s3)
            | EmptyString => Some (EmptyString, s3)
            end in
          match exp with
          | None => None
          | Some (ex, s4) =>
              Some (String.append sign (String.append int (String.append fr ex)), s4)
          end
      end
  end.

(** Assigning a property: a later duplicate key replaces the earlier value. *)
Fixpoint set_prop {N} (k : string) (v : jsval N) (props : list (string * jsval N))
    : list (string * jsval N) :=
  match props with
  | [] => [(k, v)]
  | (k', v') :: rest =>
      if String.eqb k' k then (k, v) :: rest else (k', v') :: set_prop k v rest
  end.

Definition starts_with (p s : string) : option string :=
  if String.prefix p s
  then Some (String.substring (String.length p) (String.length s - String.length p) s)
  else None.

(** One JSON value at the head of [s], and what follows it.  Every call
    uses up fuel; [2 * length s + 2] is enough for a text [s]. *)
Fixpoint parse_value (fuel : nat) (s : string) : option (jsval string * string) :=
  match fuel with
  | O => None
  | S fuel' =>
      match skip_ws s with
      | String "{" r =>
          match skip_ws r with
          | String "}" r' => Some (VObj [], r')
          | r' =>
              match parse_members fuel' r' with
              | Some (ms, after) =>
                  Some (VObj (fold_left (fun acc kv => set_prop (fst kv) (snd kv) acc) ms []), after)
              | None => None
              end
          end
      | String "[" r =>
          match skip_ws r with
          | String "]" r' => Some (VArr [], r')
          | r' =>
              match parse_elements fuel' r' with
              | Some (vs, after) => Some (VArr vs, after)
              | None => None
              end
          end
      | String c r as s' =>
          if Ascii.eqb c quote then
            match string_body r with
            | Some (str, after) => Some (VStr str, after)
            | None => None
            end
          else
            match starts_with "true" s', starts_with "false" s', starts_with "null" s' with
            | Some after, _, _ => Some (VBool true, after)
            | _, Some after, _ => Some (VBool false, after)
            | _, _, Some after => Some (VNull, after)
            | None, None, None =>
                match number_literal s' with
                | Some (lit, after) => Some (VNum lit, after)
                | None => None
                end
            end
      | EmptyString => None
      end
  end
with parse_elements (fuel : nat) (s : string) : option (list (jsval string) * string) :=
  match fuel with
  | O => None
  | S fuel' =>
      match parse_value fuel' s with
      | Some (v, after) =>
          match skip_ws after with
          | String "," r =>
              match parse_elements fuel' r with
              | Some (vs, after') => Some (v :: vs, after')
              | None => None
              end
          | String "]" r => Some ([v], r)
          | _ => None
          end
      | None => None
      end
  end
with parse_members (fuel : nat) (s : string)
    : option (list (string * jsval string) * string) :=
  match fuel with
  | O => None
  | S fuel' =>
      match skip_ws s with
      | String c r =>
          if Ascii.eqb c quote then
            match string_body r with
            | Some (key, after) =>
                match skip_ws after with
                | String ":" r1 =>
                    match parse_value fuel' r1 with
                    | Some (v, after1) =>
                        match skip_ws after1 with
                        | String "," r2 =>
                            match parse_members fuel' r2 with
                            | Some (ms, after2) => Some ((key, v) :: ms, after2)
                            | None => None
                            end
                        | String "}" r2 => Some ([(key, v)], r2)
                        | _ => None
                        end
                    | None => None
                    end
                | _ => None
                end
            | None => None
            end
          else None
      | EmptyString => None
      end
  end.

Definition SyntaxError (msg : string) : js_error := MkError "SyntaxError" (Some msg).

Definition parse_json (text : string) : js_error + jsval string :=
  match skip_ws text with
  | EmptyString => inl (SyntaxError "Unexpected end of JSON input")
  | _ =>
      match parse_value (2 * String.length text + 2) text with
      | Some (v, after) =>
          match skip_ws after with
          | EmptyString => inr v
          | _ => inl (SyntaxError "Unexpected non-whitespace character after JSON")
          end
      | None => inl (SyntaxError "Unexpected token in JSON")
      end
  end.

(** A number literal denotes zero when its digits before the exponent are
    all zeros. *)
Fixpoint has_nonzero_digit (s : string) : bool :=
  match s with
  | EmptyString => false
  | String c rest =>
      if Ascii.eqb c "e" || Ascii.eqb c "E" then false
      else (is_digit c && negb (Ascii.eqb c "0")) || has_nonzero_digit rest
  end.

(** [String(v)] *)
Fixpoint to_text (v : jsval string) : string :=
  match v with
  | VNull => "null"%string
  | VBool true => "true"%string
  | VBool false => "false"%string
  | VNum n => n
  | VStr s => s
  | VArr items =>
      String.concat ","%string
        (map (fun x => match x with VNull => EmptyString | _ => to_text x end) items)
  | VObj _ => "[object Object]"%string
  end.

Definition parse_uri (v : jsval string) : js_error + string := inr (to_text v).

Definition host : Host :=
  Build_Host string has_nonzero_digit ascii_trim ascii_toLowerCase parse_json string parse_uri.

(** JSON text written with ['] for the double quote. *)
Fixpoint json (s : string) : string :=
  match s with
  | EmptyString => EmptyString
  | String c rest => String (if Ascii.eqb c "'" then quote else c) (json rest)
  end.

(** Sample replies of the service. *)
Definition drift_reply : jsval string :=
  VObj [("mode"%string, VStr "arch_drift"%string); ("answer"%string, VStr "plain text"%string)].

Definition drift_response : net_outcome :=
  Response (Some 200) [json "{'mode': 'arch_drift'}"%string].

Definition slow_reply : net_outcome :=
  Response (Some 200) [json "{'answer': '...',"%string; json " 'score': 0.95}"%string].

Definition refused : js_error := new_Error "connect ECONNREFUSED 127.0.0.1:8000"%string.

End Reference.

(** * The rest of the extension *)

(** ** getNonce *)

Definition possible : string :=
  "ABCDEFGHIJKLMNOPQRSTUVWXYZabcdefghijklmnopqrstuvwxyz0123456789".

(** [s.charAt(i)]: the character at [i] as a string, the empty string when
    [i] is out of range. *)
Definition charAt (s : string) (i : nat) : string :=
  match String.get i s with
  | Some c => String c EmptyString
  | None => EmptyString
  end.

(** The loop of [getNonce] with [count] rounds to go; [index i] is the value
    of [Math.floor(Math.random() * possible.length)] in round [i]. *)
Fixpoint getNonce_loop (count i : nat) (index : nat -> nat) (text : string) : string :=
  match count with
  | O => text
  | S count' => getNonce_loop count' (S i) index (text ++ charAt possible (index i))
  end.

Definition getNonce (index : nat -> nat) : string :=
  getNonce_loop 32 0 index EmptyString.

Definition is_letter_or_digit (c : ascii) : bool :=
  let n := nat_of_ascii c in
  ((65 <=? n) && (n <=? 90) || (97 <=? n) && (n <=? 122) || (48 <=? n) && (n <=? 57))%nat.

Section Webview.
Context `{Host}.

Local Abbreviation jsv := (jsval number).

(** The string a value turns into when it is assigned to [textContent]. *)
Variable ToString : jsv -> string.

(** ** The script of the chat webview *)

(** One [div] appended to the [#messages] container. *)
Record bubble := MkBubble {
  className : string;
  textContent : string
}.

(** The page: the text in [#input] and the children of [#messages].  Both
    elements are in the markup, so the script's guards on them pass. *)
Record page := MkPage {
  input_value : string;
  messages : list bubble
}.

(** [x || d] *)
Definition or_else (x d : jsv) : jsv := if truthy x then x else d.

(** [appendMessage(role, text)]; scrolling is not modelled. *)
Definition appendMessage (role : string) (text : jsv) (pg : page) : page :=
  MkPage (input_value pg)
    (messages pg ++
       [MkBubble ("message " ++ (if string_truthy role then role else "agent"))
          (ToString (or_else text (VStr EmptyString)))]).

(** [sendCurrentInput()]: the page afterwards and the message handed to
    [vscode.postMessage], if any. *)
Definition sendCurrentInput (pg : page) : page * option inbound :=
  let value := trim (if string_truthy (input_value pg) then input_value pg else EmptyString) in
  if negb (string_truthy value) then (pg, None)
  else
    let pg' := appendMessage "user" (VStr value) pg in
    (MkPage EmptyString (messages pg'),
     Some (MkInbound (Some (VStr "ask")) (Some (VStr value)) None)).

(** The [keydown] listener of [#input]. *)
Definition onKeydown (key : string) (shiftKey : bool) (pg : page) : page * option inbound :=
  if String.eqb key "Enter" && negb shiftKey then sendCurrentInput pg else (pg, None).

(** The [message] listener of the window; [None] stands for event data that
    is none of the three kinds. *)
Definition onWindowMessage (data : option out_msg) (pg : page) : page :=
  match data with
  | Some (MAnswer _ answer _ _ _ _) => appendMessage "agent" (or_else answer (VStr EmptyString)) pg
  | Some (MError _ message) => appendMessage "agent" (or_else (VStr message) (VStr "Error")) pg
  | Some (MStatus message) =>
      appendMessage "agent" (or_else (VStr message) (VStr "Thinking...")) pg
  | None => pg
  end.

(** The messages the extension posted to the webview of panel [self]. *)
Fixpoint posted_to (self : nat) (evs : list event) : list out_msg :=
  match evs with
  | [] => []
  | PostMessage p m :: rest =>
      if Nat.eqb p self then m :: posted_to self rest else posted_to self rest
  | _ :: rest => posted_to self rest
  end.

(** The page after the webview has received the messages in order. *)
Definition receive_all (ms : list out_msg) (pg : page) : page :=
  fold_left (fun pg' m => onWindowMessage (Some m) pg') ms pg.

End Webview.

Section Outcomes.
Context `{Host}.

Local Abbreviation jsv := (jsval number).

(** The message that ends an exchange, when there is one: none for a
    redirect. *)
Definition terminal_message (trimmedQuestion : string) (settled : completion jsv)
    : option out_msg :=
  match settled with
  | Throw err => Some (error_message trimmedQuestion err)
  | Normal VNull => Some (error_message trimmedQuestion (null_read_error "mode"))
  | Normal data =>
      if isArchDrift (read data "mode") (read data "answer") then None
      else Some (answer_message trimmedQuestion data)
  end.

(** [n] calls of [showOrReveal k] in a row. *)
Definition show_times (k : kind) (n : nat) (w : world) : world :=
  Nat.iter n (fun w' => snd (showOrReveal k w')) w.

End Outcomes.

(** * Properties *)

Section Properties.
Context `{Host}.
Local Open Scope list_scope.

Local Abbreviation jsv := (jsval number).

(** ** Helper lemmas *)

Lemma string_truthy_false (s : string) : string_truthy s = false <-> s = EmptyString.
Proof. destruct s; simpl; split; congruence. Qed.

Lemma string_truthy_true (s : string) : string_truthy s = true <-> s <> EmptyString.
Proof. destruct s; simpl; split; congruence. Qed.

Lemma get_not_null (data : jsv) (k : string) :
  data <> VNull -> get data k = Normal (read data k).
Proof. unfold read. destruct data; simpl; congruence. Qed.

Lemma get_null (k : string) : get (VNull : jsv) k = Throw (null_read_error k).
Proof. reflexivity. Qed.

Lemma isArchDrift_true (mode answer : option jsv) :
  isArchDrift mode answer = true <->
  mode = Some (VStr "arch_drift") \/
  exists a, answer = Some (VStr a) /\ includes (toLowerCase a) "archdrift ui" = true.
Proof.
  unfold isArchDrift. rewrite orb_true_iff. split.
  - intros [Hm | Ha].
    + left. destruct mode as [[]|]; try discriminate.
      apply String.eqb_eq in Hm. by subst.
    + right. destruct answer as [[]|]; try discriminate. eauto.
  - intros [-> | (a & -> & Ha)]; [left; reflexivity | right; exact Ha].
Qed.

(** The step [handleAsk] takes before its [await]. *)
Lemma handleAsk_begin_empty (self : nat) (question : string) (w : world) :
  trim question = EmptyString ->
  handleAsk_begin self question w = (Normal None, w).
Proof. intros Hq. unfold handleAsk_begin. by rewrite Hq. Qed.

Lemma handleAsk_begin_nonempty (self : nat) (question : string) (w : world) :
  trim question <> EmptyString ->
  handleAsk_begin self question w =
    (Normal (Some (trim question)),
     emit (request_event (trim question)) (emit (PostMessage self (MStatus "Thinking...")) w)).
Proof.
  intros Hq. apply string_truthy_true in Hq.
  unfold handleAsk_begin. by rewrite Hq.
Qed.

(** The three ways [handleAsk] goes on after its [await]. *)
Lemma handleAsk_resume_rejected (self : nat) (tq : string) (err : js_error) (w : world) :
  handleAsk_resume self tq (Throw err) w =
    (Normal tt, emit (PostMessage self (error_message tq err)) w).
Proof. reflexivity. Qed.

Lemma handleAsk_resume_null (self : nat) (tq : string) (w : world) :
  handleAsk_resume self tq (Normal VNull) w =
    (Normal tt, emit (PostMessage self (error_message tq (null_read_error "mode"))) w).
Proof. reflexivity. Qed.

Lemma handleAsk_resume_resolved (self : nat) (tq : string) (data : jsv) (w : world) :
  data <> VNull ->
  handleAsk_resume self tq (Normal data) w =
    if isArchDrift (read data "mode") (read data "answer")
    then ArchDriftPanel_createOrShow w
    else (Normal tt, emit (PostMessage self (answer_message tq data)) w).
Proof.
  intros Hd. unfold handleAsk_resume, try_catch, bind, lift.
  rewrite !(get_not_null _ _ Hd).
  destruct (isArchDrift _ _) eqn:E.
  - unfold ArchDriftPanel_createOrShow.
    destruct (panels w !! panelKey); reflexivity.
  - reflexivity.
Qed.

(** [ArchDriftPanel.createOrShow] returns normally, logs the one event that
    shows the panel, and leaves the panel registered. *)
Lemma ArchDriftPanel_createOrShow_spec (w : world) :
  exists p e w',
    ArchDriftPanel_createOrShow w = (Normal tt, w') /\
    log w' = log w ++ [e] /\ shows_visualization p e /\
    panels w' !! panelKey = Some p /\
    currentPanel w' = currentPanel w.
Proof.
  unfold ArchDriftPanel_createOrShow.
  destruct (panels w !! panelKey) as [p|] eqn:E.
  - exists p, (Reveal p), (emit (Reveal p) w). repeat split; try done. by left.
  - eexists (next_panel w), _, _. split; [reflexivity|]. simpl.
    repeat split; try done.
    + by right.
    + by rewrite lookup_insert_eq.
Qed.

Lemma handleAsk_resume_redirect (self : nat) (tq : string) (data : jsv) (w : world) :
  data <> VNull ->
  isArchDrift (read data "mode") (read data "answer") = true ->
  exists p shown w',
    handleAsk_resume self tq (Normal data) w = (Normal tt, w') /\
    log w' = log w ++ [shown] /\ shows_visualization p shown /\
    panels w' !! panelKey = Some p /\
    currentPanel w' = currentPanel w.
Proof.
  intros Hd Hr. rewrite (handleAsk_resume_resolved _ _ _ _ Hd), Hr.
  destruct (ArchDriftPanel_createOrShow_spec w) as (p & e & w' & ? & ? & ? & ? & ?).
  by exists p, e, w'.
Qed.

(** After the [await], exactly one event is added, never a status, and the
    call returns normally. *)
Lemma handleAsk_resume_one_event (self : nat) (tq : string) (settled : completion jsv)
    (w : world) :
  exists last w',
    handleAsk_resume self tq settled w = (Normal tt, w') /\
    log w' = log w ++ [last] /\ is_status last = false.
Proof.
  destruct settled as [data | err].
  - destruct data as [ | b | n | s | items | props ] eqn:Ed.
    { eexists _, _. rewrite handleAsk_resume_null. simpl. done. }
    all: rewrite handleAsk_resume_resolved by discriminate.
    all: match goal with |- context [isArchDrift ?m ?a] => destruct (isArchDrift m a) end.
    all: try (eexists _, _; split; [reflexivity|]; simpl; done).
    all: destruct (ArchDriftPanel_createOrShow_spec w) as (p & e & w' & -> & ? & Hshow & _);
      exists e, w'; repeat split; try done; by destruct Hshow as [-> | ->].
  - eexists _, _. rewrite handleAsk_resume_rejected. simpl. done.
Qed.

Lemma handleAsk_unfold (self : nat) (question : string) (net : net_outcome) (w : world) :
  trim question <> EmptyString ->
  handleAsk self question net w =
    handleAsk_resume self (trim question) (postJson_settle net)
      (emit (request_event (trim question)) (emit (PostMessage self (MStatus "Thinking...")) w)).
Proof.
  intros Hq. apply string_truthy_true in Hq.
  unfold handleAsk. rewrite Hq. reflexivity.
Qed.

(** [handleAsk] is its first half followed, when a request went out, by its
    second half. *)
Lemma handleAsk_split (self : nat) (question : string) (net : net_outcome) (w : world) :
  handleAsk self question net w =
    match handleAsk_begin self question w with
    | (Normal (Some trimmedQuestion), w1) =>
        handleAsk_resume self trimmedQuestion (postJson_settle net) w1
    | (_, w1) => (Normal tt, w1)
    end.
Proof.
  unfold handleAsk, handleAsk_begin.
  destruct (string_truthy (trim question)); reflexivity.
Qed.

(** ** The exchange *)

(** C1: a response whose [mode] is ['arch_drift'] is a redirect whatever its
    answer; otherwise one whose [answer] is a string with ['archdrift ui'] in
    its lower-case form is a redirect; every other response is answered with
    an answer message carrying its fields.  A redirect is the call of
    [ArchDriftPanel.createOrShow()]. *)
Theorem classification_precedence (self : nat) (tq : string) (data : jsv) (w : world) :
  data <> VNull ->
  let mode := read data "mode" in
  let answer := read data "answer" in
  let outcome := handleAsk_resume self tq (Normal data) w in
  let has_link :=
    exists a, answer = Some (VStr a) /\ includes (toLowerCase a) "archdrift ui" = true in
  (mode = Some (VStr "arch_drift") -> outcome = ArchDriftPanel_createOrShow w) /\
  (mode <> Some (VStr "arch_drift") -> has_link -> outcome = ArchDriftPanel_createOrShow w) /\
  (mode <> Some (VStr "arch_drift") -> ~ has_link ->
   outcome = (Normal tt, emit (PostMessage self (answer_message tq data)) w)).
Proof.
  intros Hd mode answer outcome has_link. subst outcome.
  rewrite (handleAsk_resume_resolved _ _ _ _ Hd). fold mode answer.
  destruct (isArchDrift mode answer) eqn:E.
  - apply isArchDrift_true in E. repeat split; try done.
    intros Hm Hl. by destruct E.
  - assert (~ (mode = Some (VStr "arch_drift") \/ has_link)) as Hn.
    { intros Hc. apply isArchDrift_true in Hc. congruence. }
    repeat split; intros; try done; exfalso; apply Hn; auto.
Qed.

(** C2: when the response is a redirect, the exchange shows the visualization
    panel (reveals the registered one or creates and registers one) and posts
    nothing to the chat webview but the status: no answer, no error. *)
Theorem redirect_shows_panel_only (self : nat) (question : string) (net : net_outcome)
    (data : jsv) (w : world) :
  trim question <> EmptyString ->
  postJson_settle net = Normal data ->
  data <> VNull ->
  isArchDrift (read data "mode") (read data "answer") = true ->
  exists p shown w',
    handleAsk self question net w = (Normal tt, w') /\
    shows_visualization p shown /\
    panels w' !! panelKey = Some p /\
    log w' = log w ++ [PostMessage self (MStatus "Thinking...");
                       request_event (trim question); shown] /\
    is_terminal shown = false.
Proof.
  intros Hq Hs Hd Hr. rewrite (handleAsk_unfold _ _ _ _ Hq), Hs.
  destruct (handleAsk_resume_redirect self (trim question) data
              (emit (request_event (trim question))
                 (emit (PostMessage self (MStatus "Thinking...")) w)) Hd Hr)
    as (p & shown & w' & -> & Hl & Hsh & Hp & _).
  exists p, shown, w'. repeat split; try done.
  - rewrite Hl. simpl. by rewrite <- !app_assoc.
  - by destruct Hsh as [-> | ->].
Qed.

(** C3: a question that trims to the empty string is dropped: the call
    returns normally and the world is unchanged, so no message is posted and
    no request is sent, whether [handleAsk] is called directly or through an
    [ask] message. *)
Theorem empty_query_dropped (self : nat) (question : string) (net : net_outcome)
    (url : option jsv) (w : world) :
  trim question = EmptyString ->
  handleAsk self question net w = (Normal tt, w) /\
  handleAsk_begin self question w = (Normal None, w) /\
  onDidReceiveMessage self (MkInbound (Some (VStr "ask")) (Some (VStr question)) url) net w
    = (Normal tt, w).
Proof.
  intros Hq.
  assert (handleAsk self question net w = (Normal tt, w)) as Hh.
  { by rewrite handleAsk_split, (handleAsk_begin_empty _ _ _ Hq). }
  repeat split; [done | by apply handleAsk_begin_empty |].
  unfold onDidReceiveMessage. simpl. unfold bind, lift. simpl. exact Hh.
Qed.

(** C4: for a question that does not trim to the empty string, the status
    ["Thinking..."] is posted once, before the request goes out; what follows
    the [await], whenever the request settles, is one more event that is not
    a status; so in the whole exchange the status comes first and the answer
    or error, if any, last. *)
Theorem one_status_before_terminal (self : nat) (question : string) (net : net_outcome)
    (w : world) :
  trim question <> EmptyString ->
  let status := PostMessage self (MStatus "Thinking...") in
  let request := request_event (trim question) in
  (exists w1, handleAsk_begin self question w = (Normal (Some (trim question)), w1) /\
              log w1 = log w ++ [status; request]) /\
  (forall settled w2, exists last w3,
      handleAsk_resume self (trim question) settled w2 = (Normal tt, w3) /\
      log w3 = log w2 ++ [last] /\ is_status last = false) /\
  (exists last w',
      handleAsk self question net w = (Normal tt, w') /\
      log w' = log w ++ [status; request; last] /\
      is_status last = false /\
      filter (fun e => is_status e = true) [status; request; last] = [status]).
Proof.
  intros Hq status request. split; [|split].
  - eexists. rewrite (handleAsk_begin_nonempty _ _ _ Hq). split; [reflexivity|].
    simpl. by rewrite <- app_assoc.
  - intros settled w2. apply handleAsk_resume_one_event.
  - rewrite (handleAsk_unfold _ _ _ _ Hq).
    destruct (handleAsk_resume_one_event self (trim question) (postJson_settle net)
                (emit (request_event (trim question))
                   (emit (PostMessage self (MStatus "Thinking...")) w)))
      as (last & w' & -> & Hl & Hns).
    exists last, w'. repeat split; try done.
    + rewrite Hl. simpl. by rewrite <- !app_assoc.
    + rewrite !filter_cons. simpl. rewrite filter_nil.
      destruct (decide (is_status status = true)) as [_|n]; [|by destruct n].
      destruct (decide (is_status request = true)) as [e|_]; [discriminate e|].
      destruct (decide (is_status last = true)) as [e|_]; [congruence|]. done.
Qed.

(** C7: when the request fails (the connection, an error status or
    unparsable JSON), the exchange posts, after the status, one error message
    made of the fixed prefix and the cause text, posts no answer, returns
    normally and leaves the registry as it was; the same holds from any world
    in which the failure arrives. *)
Theorem transport_failure_reported (self : nat) (question : string) (net : net_outcome)
    (err : js_error) (w : world) :
  trim question <> EmptyString ->
  postJson_settle net = Throw err ->
  let report :=
    PostMessage self (MError (trim question) (unreachable_prefix ++ cause_text err)%string) in
  handleAsk self question net w =
    (Normal tt,
     emit report
       (emit (request_event (trim question))
          (emit (PostMessage self (MStatus "Thinking...")) w))) /\
  (forall w2, handleAsk_resume self (trim question) (Throw err) w2 = (Normal tt, emit report w2)).
Proof.
  intros Hq Hs report. split.
  - by rewrite (handleAsk_unfold _ _ _ _ Hq), Hs.
  - intros w2. apply handleAsk_resume_rejected.
Qed.

(** ** postJson *)

Lemma is_http_error_ge (statusCode : nat) :
  400 <= statusCode -> is_http_error (Some statusCode) = true.
Proof.
  intros Hc. unfold is_http_error.
  apply andb_true_iff. split.
  - apply negb_true_iff, Nat.eqb_neq. lia.
  - by apply Nat.leb_le.
Qed.

Lemma is_http_error_lt (statusCode : nat) :
  statusCode < 400 -> is_http_error (Some statusCode) = false.
Proof.
  intros Hc. unfold is_http_error.
  apply andb_false_iff. right. apply Nat.leb_gt. lia.
Qed.

(** A response that is not an error status settles by its body alone. *)
Lemma on_end_below_400 (statusCode : nat) (data : string) :
  statusCode < 400 ->
  on_end (Some statusCode) data =
    call (if string_truthy data then JSON_parse data else inr (VObj [])).
Proof. intros Hc. unfold on_end. by rewrite (is_http_error_lt _ Hc). Qed.

(** C5 (as amended): a response whose status is 400 or more makes [postJson]
    reject with the error ["HTTP error! status: <code>"], whatever the body
    is; the promise is not resolved. *)
Theorem error_status_rejects (statusCode : nat) (chunks : list string) :
  400 <= statusCode ->
  postJson_settle (Response (Some statusCode) chunks) =
    Throw (new_Error ("HTTP error! status: " ++ decimal_of_nat statusCode)%string) /\
  forall parsed, postJson_settle (Response (Some statusCode) chunks) <> Normal parsed.
Proof.
  intros Hc.
  assert (postJson_settle (Response (Some statusCode) chunks) =
          Throw (new_Error ("HTTP error! status: " ++ decimal_of_nat statusCode)%string)) as E.
  { simpl. unfold on_end. by rewrite (is_http_error_ge _ Hc). }
  split; [exact E|]. intros parsed. rewrite E. discriminate.
Qed.

(** C6 (as amended): when the status is below 400 and the body is not empty,
    a body on which [JSON.parse] throws makes [postJson] reject with that
    very error. *)
Theorem malformed_body_rejects (statusCode : nat) (chunks : list string) (err : js_error) :
  statusCode < 400 ->
  collect chunks <> EmptyString ->
  JSON_parse (collect chunks) = inl err ->
  postJson_settle (Response (Some statusCode) chunks) = Throw err.
Proof.
  intros Hc Hne Hp. simpl. rewrite (on_end_below_400 _ _ Hc).
  apply string_truthy_true in Hne. by rewrite Hne, Hp.
Qed.

(** An empty body is not handed to [JSON.parse]: the promise resolves with
    the empty object. *)
Lemma empty_body_resolves (statusCode : nat) :
  statusCode < 400 ->
  postJson_settle (Response (Some statusCode) []) = Normal (VObj []).
Proof. intros Hc. simpl. by rewrite (on_end_below_400 _ _ Hc). Qed.

(** ** The registry *)

Lemma wf_init : wf init.
Proof. split; simpl; intros *; try rewrite lookup_empty; done. Qed.

Lemma wf_emit (e : event) (w : world) : wf w -> wf (emit e w).
Proof. intros [? ? ? ?]. by split. Qed.

Lemma wf_next_not_live (w : world) : wf w -> live w !! next_panel w = None.
Proof.
  intros Hwf. destruct (live w !! next_panel w) as [info|] eqn:E; [|done].
  apply (wf_fresh _ Hwf) in E. lia.
Qed.

Lemma wf_ArchDriftPanel_createOrShow (w : world) :
  wf w -> wf (snd (ArchDriftPanel_createOrShow w)).
Proof.
  intros Hwf. unfold ArchDriftPanel_createOrShow.
  destruct (panels w !! panelKey) as [p|] eqn:E; simpl.
  { by apply wf_emit. }
  pose proof (wf_next_not_live _ Hwf) as Hnew.
  destruct Hwf as [Hf Hl Hc Hd]. split; simpl.
  - intros q info Hq. destruct (decide (q = next_panel w)) as [->|Hne]; [lia|].
    rewrite lookup_insert_ne in Hq by done. apply Hf in Hq. lia.
  - intros q info Hq. destruct (decide (q = next_panel w)) as [->|Hne].
    + rewrite lookup_insert_eq in Hq. injection Hq as <-. right. split; [done|].
      by rewrite lookup_insert_eq.
    + rewrite lookup_insert_ne in Hq by done.
      destruct (Hl _ _ Hq) as [[? ?]|[? ?]]; [by left | congruence].
  - intros q Hq. rewrite lookup_insert_ne; [by apply Hc|].
    intros <-. apply Hc in Hq. congruence.
  - intros key q Hq. destruct (decide (key = panelKey)) as [->|Hne].
    + rewrite lookup_insert_eq in Hq. injection Hq as <-.
      by rewrite lookup_insert_eq.
    + rewrite lookup_insert_ne in Hq by done. by destruct (Hd _ _ Hq).
Qed.

Lemma wf_ObservabilityPanel_createOrShow (w : world) :
  wf w -> wf (snd (ObservabilityPanel_createOrShow w)).
Proof.
  intros Hwf. unfold ObservabilityPanel_createOrShow.
  destruct (currentPanel w) as [p|] eqn:E; simpl.
  { by apply wf_emit. }
  pose proof (wf_next_not_live _ Hwf) as Hnew.
  destruct Hwf as [Hf Hl Hc Hd]. split; simpl.
  - intros q info Hq. destruct (decide (q = next_panel w)) as [->|Hne]; [lia|].
    rewrite lookup_insert_ne in Hq by done. apply Hf in Hq. lia.
  - intros q info Hq. destruct (decide (q = next_panel w)) as [->|Hne].
    + rewrite lookup_insert_eq in Hq. injection Hq as <-. by left.
    + rewrite lookup_insert_ne in Hq by done.
      destruct (Hl _ _ Hq) as [[? ?]|[? ?]]; [congruence | by right].
  - intros q [= <-]. by rewrite lookup_insert_eq.
  - intros key q Hq. destruct (Hd _ _ Hq) as [-> Hq']. split; [done|].
    rewrite lookup_insert_ne; [done|]. intros <-. congruence.
Qed.

Lemma WebviewPanel_dispose_chat (p : nat) (w : world) :
  live w !! p = Some chat_panel ->
  WebviewPanel_dispose p w =
    MkWorld (next_panel w) (delete p (live w)) None (panels w) (log w).
Proof. intros E. unfold WebviewPanel_dispose. by rewrite E. Qed.

Lemma WebviewPanel_dispose_drift (p : nat) (w : world) :
  live w !! p = Some drift_panel ->
  WebviewPanel_dispose p w =
    MkWorld (next_panel w) (delete p (live w)) (currentPanel w)
      (delete panelKey (panels w)) (log w).
Proof. intros E. unfold WebviewPanel_dispose. by rewrite E. Qed.

Lemma wf_WebviewPanel_dispose (p : nat) (w : world) :
  wf w -> wf (WebviewPanel_dispose p w).
Proof.
  intros Hwf. destruct (live w !! p) as [info|] eqn:E.
  2:{ unfold WebviewPanel_dispose. by rewrite E. }
  destruct Hwf as [Hf Hl Hc Hd].
  destruct (Hl _ _ E) as [[-> Hcur]|[-> Hreg]].
  - rewrite (WebviewPanel_dispose_chat _ _ E). split; simpl.
    + intros q info Hq. apply lookup_delete_Some in Hq as [_ Hq]. eauto.
    + intros q info Hq. apply lookup_delete_Some in Hq as [Hne Hq].
      destruct (Hl _ _ Hq) as [[? ?]|[? ?]]; [congruence | by right].
    + done.
    + intros key q Hq. destruct (Hd _ _ Hq) as [-> Hq']. split; [done|].
      rewrite lookup_delete_ne; [done|]. intros <-. rewrite E in Hq'. discriminate.
  - rewrite (WebviewPanel_dispose_drift _ _ E). split; simpl.
    + intros q info Hq. apply lookup_delete_Some in Hq as [_ Hq]. eauto.
    + intros q info Hq. apply lookup_delete_Some in Hq as [Hne Hq].
      destruct (Hl _ _ Hq) as [[? ?]|[? ?]]; [by left | congruence].
    + intros q Hq. rewrite lookup_delete_ne; [by apply Hc|].
      intros <-. apply Hc in Hq. rewrite E in Hq. discriminate.
    + intros key q Hq. apply lookup_delete_Some in Hq as [Hne Hq].
      by destruct (Hd _ _ Hq).
Qed.

Lemma wf_handleAsk_begin (self : nat) (question : string) (w : world) :
  wf w -> wf (snd (handleAsk_begin self question w)).
Proof.
  intros Hwf. destruct (string_dec (trim question) EmptyString) as [E|E].
  - by rewrite (handleAsk_begin_empty _ _ _ E).
  - rewrite (handleAsk_begin_nonempty _ _ _ E). simpl. by do 2 apply wf_emit.
Qed.

Lemma handleAsk_resume_cases (self : nat) (tq : string) (settled : completion jsv)
    (w : world) :
  (exists e, snd (handleAsk_resume self tq settled w) = emit e w) \/
  snd (handleAsk_resume self tq settled w) = snd (ArchDriftPanel_createOrShow w).
Proof.
  destruct settled as [data | err].
  - destruct data as [ | b | n | s | items | props ] eqn:Ed.
    { left. eexists. by rewrite handleAsk_resume_null. }
    all: rewrite handleAsk_resume_resolved by discriminate.
    all: match goal with |- context [isArchDrift ?m ?a] => destruct (isArchDrift m a) end.
    all: first [ by right | left; eexists; reflexivity ].
  - left. eexists. by rewrite handleAsk_resume_rejected.
Qed.

Lemma wf_handleAsk_resume (self : nat) (tq : string) (settled : completion jsv) (w : world) :
  wf w -> wf (snd (handleAsk_resume self tq settled w)).
Proof.
  intros Hwf. destruct (handleAsk_resume_cases self tq settled w) as [[e ->] | ->].
  - by apply wf_emit.
  - by apply wf_ArchDriftPanel_createOrShow.
Qed.

Lemma wf_handleAsk (self : nat) (question : string) (net : net_outcome) (w : world) :
  wf w -> wf (snd (handleAsk self question net w)).
Proof.
  intros Hwf. destruct (string_dec (trim question) EmptyString) as [E|E].
  - by rewrite handleAsk_split, (handleAsk_begin_empty _ _ _ E).
  - rewrite (handleAsk_unfold _ _ _ _ E).
    by apply wf_handleAsk_resume; do 2 apply wf_emit.
Qed.

Lemma wf_onDidReceiveMessage (self : nat) (message : inbound) (net : net_outcome)
    (w : world) :
  wf w -> wf (snd (onDidReceiveMessage self message net w)).
Proof.
  intros Hwf. unfold onDidReceiveMessage.
  destruct (msg_type message) as [[ | | | t | | ]|]; try done.
  destruct (String.eqb t "ask").
  { unfold bind, lift. destruct (as_question (msg_text message)); [|done].
    by apply wf_handleAsk. }
  destruct (String.eqb t "openArchDrift"); [|done].
  destruct (msg_url message) as [url|]; [|done].
  destruct (truthy url); [|done].
  unfold bind, lift. destruct (Uri_parse url); [done|].
  simpl. by apply wf_emit.
Qed.

(** The invariant holds in every world the extension can get to. *)
Lemma reachable_wf (w : world) : reachable w -> wf w.
Proof.
  unfold reachable. intros Hr.
  refine (rtc_ind_r (fun w' => wf w') init wf_init _ w Hr).
  intros w0 w1 _ Hs IH. destruct Hs.
  - by apply wf_ObservabilityPanel_createOrShow.
  - by apply wf_WebviewPanel_dispose.
  - by apply wf_onDidReceiveMessage.
  - by apply wf_handleAsk_begin.
  - by apply wf_handleAsk_resume.
Qed.

Lemma showOrReveal_registered (k : kind) (p : nat) (w : world) :
  registered k w = Some p ->
  showOrReveal k w = (Normal tt, emit (Reveal p) w).
Proof.
  destruct k; simpl; intros E.
  - unfold ObservabilityPanel_createOrShow. by rewrite E.
  - unfold ArchDriftPanel_createOrShow. by rewrite E.
Qed.

Lemma showOrReveal_unregistered (k : kind) (w : world) :
  registered k w = None ->
  exists ttl w',
    showOrReveal k w = (Normal tt, w') /\
    registered k w' = Some (next_panel w) /\
    live w' = <[next_panel w := match k with Chat => chat_panel | Visualization => drift_panel end]>
                (live w) /\
    next_panel w' = S (next_panel w) /\
    log w' = log w ++ [CreateWebviewPanel (next_panel w) (kind_viewType k) ttl].
Proof.
  destruct k; simpl; intros E.
  - unfold ObservabilityPanel_createOrShow. rewrite E. by eexists _, _.
  - unfold ArchDriftPanel_createOrShow. rewrite E. eexists _, _.
    split; [reflexivity|]. simpl. by rewrite lookup_insert_eq.
Qed.

(** The open panel of a kind, in a consistent world, is the registered one. *)
Lemma wf_live_registered (k : kind) (w : world) (q : nat) (info : webview_panel) :
  wf w -> live w !! q = Some info -> viewType info = kind_viewType k ->
  registered k w = Some q.
Proof.
  intros Hwf Hq Hv. destruct (wf_live _ Hwf _ _ Hq) as [[-> ?]|[-> ?]];
    destruct k; simpl in *; done.
Qed.

Lemma wf_registered_live (k : kind) (w : world) (p : nat) :
  wf w -> registered k w = Some p ->
  live w !! p = Some (match k with Chat => chat_panel | Visualization => drift_panel end).
Proof.
  intros Hwf Hp. destruct k; simpl in *.
  - by apply (wf_chat _ Hwf).
  - by apply (wf_drift _ Hwf) in Hp as [_ ?].
Qed.

(** C8: asking twice in a row for the panel of a kind leaves one open panel
    of that kind: the first call leaves a panel registered, the second call
    only reveals that same panel (nothing is created, the registry and the
    set of open panels do not change), and no other open panel has the
    kind's view type. *)
Theorem showOrReveal_twice (k : kind) (w : world) :
  wf w ->
  let w1 := snd (showOrReveal k w) in
  let w2 := snd (showOrReveal k w1) in
  exists p,
    registered k w1 = Some p /\
    showOrReveal k w1 = (Normal tt, emit (Reveal p) w1) /\
    registered k w2 = Some p /\
    live w2 = live w1 /\
    (exists info, live w2 !! p = Some info /\ viewType info = kind_viewType k) /\
    (forall q info, live w2 !! q = Some info -> viewType info = kind_viewType k -> q = p).
Proof.
  intros Hwf w1 w2.
  assert (wf w1) as Hwf1.
  { subst w1. destruct k; simpl.
    - by apply wf_ObservabilityPanel_createOrShow.
    - by apply wf_ArchDriftPanel_createOrShow. }
  assert (exists p, registered k w1 = Some p) as [p Hp].
  { subst w1. destruct (registered k w) as [p|] eqn:E.
    - exists p. rewrite (showOrReveal_registered _ _ _ E). by destruct k.
    - destruct (showOrReveal_unregistered _ _ E) as (ttl & w' & -> & ? & _). eauto. }
  pose proof (showOrReveal_registered _ _ _ Hp) as Hsecond.
  assert (w2 = emit (Reveal p) w1) as Hw2 by (subst w2; by rewrite Hsecond).
  exists p. rewrite Hw2. repeat split; try done.
  - eexists. split; [exact (wf_registered_live _ _ _ Hwf1 Hp)|]. by destruct k.
  - intros q info Hq Hv. simpl in Hq.
    pose proof (wf_live_registered _ _ _ _ Hwf1 Hq Hv). congruence.
Qed.

(** C9: when the registered panel of a kind is disposed, its registry entry
    goes (for the chat kind the controller's own [dispose()] has the same
    effect) and the panel is no longer open; the next request for the kind
    creates a panel that is not the disposed one, registers it, and the
    disposed one stays closed. *)
Theorem dispose_then_show_is_fresh (k : kind) (p : nat) (w : world) :
  wf w ->
  registered k w = Some p ->
  let w1 := WebviewPanel_dispose p w in
  let w2 := snd (showOrReveal k w1) in
  registered k w1 = None /\
  live w1 !! p = None /\
  match k with
  | Chat => ObservabilityPanel_dispose p w = (Normal tt, w1)
  | Visualization => True
  end /\
  exists p' ttl,
    p' <> p /\
    registered k w2 = Some p' /\
    log w2 = log w1 ++ [CreateWebviewPanel p' (kind_viewType k) ttl] /\
    (exists info, live w2 !! p' = Some info /\ viewType info = kind_viewType k) /\
    live w2 !! p = None.
Proof.
  intros Hwf Hp w1 w2.
  pose proof (wf_registered_live _ _ _ Hwf Hp) as Hlive.
  pose proof (wf_fresh _ Hwf _ _ Hlive) as Hlt.
  assert (registered k w1 = None /\ live w1 !! p = None /\ next_panel w1 = next_panel w)
    as (Hnone & Hgone & Hnext).
  { subst w1. destruct k; simpl in *.
    - rewrite (WebviewPanel_dispose_chat _ _ Hlive). simpl. by rewrite lookup_delete_eq.
    - rewrite (WebviewPanel_dispose_drift _ _ Hlive). simpl. by rewrite !lookup_delete_eq. }
  split; [done|]. split; [done|]. split.
  { destruct k; [|done]. simpl in *. subst w1.
    unfold ObservabilityPanel_dispose, bind, act. simpl.
    unfold WebviewPanel_dispose. simpl. by rewrite Hlive. }
  destruct (showOrReveal_unregistered _ _ Hnone) as (ttl & w' & Hs & Hreg & Hl & _ & Hlog).
  assert (w2 = w') as -> by (subst w2; by rewrite Hs).
  exists (next_panel w1), ttl. rewrite Hnext in *.
  repeat split; try done.
  - lia.
  - rewrite Hl. eexists. rewrite lookup_insert_eq. split; [done|]. by destruct k.
  - rewrite Hl. rewrite lookup_insert_ne; [done | lia].
Qed.

(** ** Messages from the webview *)

(** C10: an [openArchDrift] message whose [url] is missing or falsy changes
    nothing and returns normally; with a truthy [url] that [Uri.parse]
    accepts, the one effect is the request to open that target. *)
Theorem openArchDrift_needs_url (self : nat) (text : option jsv) (net : net_outcome)
    (w : world) :
  let message := MkInbound (Some (VStr "openArchDrift")) text in
  onDidReceiveMessage self (message None) net w = (Normal tt, w) /\
  (forall url, truthy url = false ->
      onDidReceiveMessage self (message (Some url)) net w = (Normal tt, w)) /\
  (forall url target, truthy url = true -> Uri_parse url = inr target ->
      onDidReceiveMessage self (message (Some url)) net w
      = (Normal tt, emit (OpenExternal target) w)).
Proof.
  intros message. unfold onDidReceiveMessage. simpl. split; [done|]. split.
  - by intros url ->.
  - intros url target -> Hu. unfold bind, lift. by rewrite Hu.
Qed.

End Properties.

(** * The properties on concrete runs, with the reference host *)

Section Runs.
Local Open Scope list_scope.
Local Existing Instance Reference.host.

Lemma classification_precedence_witness :
  Reference.drift_reply <> VNull /\
  handleAsk_resume 0 "q" (Normal Reference.drift_reply) init = ArchDriftPanel_createOrShow init.
Proof.
  split; [cbv; discriminate|].
  exact (proj1 (classification_precedence (H := Reference.host) 0 "q" Reference.drift_reply init ltac:(cbv; discriminate))
           eq_refl).
Defined.

Lemma redirect_shows_panel_only_witness :
  trim "show drift" <> EmptyString /\
  postJson_settle Reference.drift_response = Normal (VObj [("mode", VStr "arch_drift")]) /\
  exists p shown w',
    handleAsk 7 "show drift" Reference.drift_response init = (Normal tt, w') /\
    shows_visualization p shown /\
    panels w' !! panelKey = Some p /\
    log w' = log init ++ [PostMessage 7 (MStatus "Thinking...");
                          request_event (trim "show drift"); shown] /\
    is_terminal shown = false.
Proof.
  split; [cbv; discriminate|]. split; [reflexivity|].
  apply (redirect_shows_panel_only (H := Reference.host) 7 "show drift" Reference.drift_response
           (VObj [("mode", VStr "arch_drift")]) init);
    [cbv; discriminate | reflexivity | discriminate | reflexivity].
Defined.

Lemma empty_query_dropped_witness :
  trim "   " = EmptyString /\
  handleAsk 0 "   " (Response (Some 200) []) init = (Normal tt, init).
Proof.
  split; [reflexivity|].
  exact (proj1 (empty_query_dropped (H := Reference.host) 0 "   " (Response (Some 200) []) None init eq_refl)).
Defined.

Lemma one_status_before_terminal_witness :
  trim "Why is my app slow?" <> EmptyString /\
  exists last w',
    handleAsk 0 "Why is my app slow?" Reference.slow_reply init = (Normal tt, w') /\
    log w' = log init ++ [PostMessage 0 (MStatus "Thinking...");
                          request_event (trim "Why is my app slow?"); last] /\
    is_status last = false /\
    filter (fun e => is_status e = true)
      [PostMessage 0 (MStatus "Thinking..."); request_event (trim "Why is my app slow?"); last]
    = [PostMessage 0 (MStatus "Thinking...")].
Proof.
  split; [cbv; discriminate|].
  exact (proj2 (proj2 (one_status_before_terminal (H := Reference.host) 0 "Why is my app slow?" Reference.slow_reply init
                         ltac:(cbv; discriminate)))).
Defined.

Lemma transport_failure_reported_witness :
  trim "ping" <> EmptyString /\
  postJson_settle (RequestError Reference.refused) = Throw Reference.refused /\
  handleAsk 0 "ping" (RequestError Reference.refused) init =
    (Normal tt,
     emit (PostMessage 0
             (MError "ping"
                (unreachable_prefix ++ "connect ECONNREFUSED 127.0.0.1:8000")%string))
       (emit (request_event "ping") (emit (PostMessage 0 (MStatus "Thinking...")) init))).
Proof.
  split; [cbv; discriminate|]. split; [reflexivity|].
  exact (proj1 (transport_failure_reported (H := Reference.host) 0 "ping" (RequestError Reference.refused) Reference.refused init
                  ltac:(cbv; discriminate) eq_refl)).
Defined.

Lemma error_status_rejects_witness :
  400 <= 500 /\
  postJson_settle (Response (Some 500) [Reference.json "{'answer': 'ignored'}"]) =
    Throw (new_Error "HTTP error! status: 500").
Proof.
  split; [lia|].
  exact (proj1 (error_status_rejects (H := Reference.host) 500 [Reference.json "{'answer': 'ignored'}"]
                  ltac:(lia))).
Defined.

Lemma malformed_body_rejects_witness :
  200 < 400 /\
  collect ["not "; "json"] <> EmptyString /\
  JSON_parse (collect ["not "; "json"]) = inl (Reference.SyntaxError "Unexpected token in JSON") /\
  postJson_settle (Response (Some 200) ["not "; "json"]) =
    Throw (Reference.SyntaxError "Unexpected token in JSON").
Proof.
  split; [lia|]. split; [cbv; discriminate|]. split; [reflexivity|].
  apply (malformed_body_rejects (H := Reference.host) 200 ["not "; "json"]); [lia | cbv; discriminate | reflexivity].
Defined.

(** C5, as first stated, fails: a 302 response is not a 2xx one, yet its
    body is parsed and the promise resolves. *)
Lemma redirect_status_resolves :
  let net := Response (Some 302) [Reference.json "{'answer': 'moved'}"] in
  ~ (200 <= 302 < 300) /\
  postJson_settle net = Normal (VObj [("answer", VStr "moved")]) /\
  ~ exists err, postJson_settle net = Throw err.
Proof.
  simpl. split; [lia|]. split; [reflexivity|].
  intros [err Herr]. vm_compute in Herr. discriminate Herr.
Qed.

(** C6, as first stated, fails: the empty body of a 200 response is not
    JSON ([JSON.parse] throws on it), yet the promise resolves with the
    empty object. *)
Lemma empty_body_is_not_rejected :
  let net := Response (Some 200) [] in
  JSON_parse EmptyString = inl (Reference.SyntaxError "Unexpected end of JSON input") /\
  postJson_settle net = Normal (VObj []) /\
  ~ exists err, postJson_settle net = Throw err.
Proof.
  simpl. split; [reflexivity|]. split; [reflexivity|].
  intros [err Herr]. discriminate Herr.
Qed.

Lemma showOrReveal_twice_witness :
  let w1 := snd (showOrReveal Visualization init) in
  wf init /\
  exists p,
    registered Visualization w1 = Some p /\
    showOrReveal Visualization w1 = (Normal tt, emit (Reveal p) w1) /\
    (forall q info, live (snd (showOrReveal Visualization w1)) !! q = Some info ->
                    viewType info = "archDriftViewer" -> q = p).
Proof.
  split; [exact wf_init|].
  destruct (showOrReveal_twice (H := Reference.host) Visualization init wf_init)
    as (p & Hreg & Hshow & _ & _ & _ & Honly).
  exists p. split; [exact Hreg|]. split; [exact Hshow | exact Honly].
Defined.

Lemma dispose_then_show_is_fresh_witness :
  let w := snd (showOrReveal Chat init) in
  let w1 := WebviewPanel_dispose 0 w in
  wf w /\ registered Chat w = Some 0 /\
  registered Chat w1 = None /\
  exists p', p' <> 0 /\ registered Chat (snd (showOrReveal Chat w1)) = Some p'.
Proof.
  pose proof (wf_ObservabilityPanel_createOrShow (H := Reference.host) init wf_init) as Hwf.
  split; [exact Hwf|]. split; [reflexivity|].
  destruct (dispose_then_show_is_fresh (H := Reference.host) Chat 0
              (snd (showOrReveal Chat init)) Hwf eq_refl)
    as (Hnone & _ & _ & p' & ttl & Hne & Hreg & _).
  split; [exact Hnone|]. exists p'. split; [exact Hne | exact Hreg].
Defined.

Lemma openArchDrift_needs_url_witness :
  truthy (VStr EmptyString) = false /\
  onDidReceiveMessage 0
    (MkInbound (Some (VStr "openArchDrift")) None (Some (VStr EmptyString)))
    (Response None []) init = (Normal tt, init).
Proof.
  split; [reflexivity|].
  exact (proj1 (proj2 (openArchDrift_needs_url (H := Reference.host) 0 None
                         (Response None []) init)) (VStr EmptyString) eq_refl).
Defined.

(** ** The scenarios of the specification *)

(** Scenario A: the answer follows the status and carries the score. *)
Example scenario_answer :
  log (snd (handleAsk 0 "Why is my app slow?" Reference.slow_reply init)) =
    [PostMessage 0 (MStatus "Thinking...");
     HttpRequest "POST" "http://localhost:8000/ask"
       (VObj [("question", VStr "Why is my app slow?")]);
     PostMessage 0
       (MAnswer "Why is my app slow?" (VStr "...") (VNum "0.95"%string) VNull VNull VNull)].
Proof. reflexivity. Qed.

(** Scenario B: white space only. *)
Example scenario_blank :
  onDidReceiveMessage 0 (MkInbound (Some (VStr "ask")) (Some (VStr "   ")) None)
    Reference.slow_reply init = (Normal tt, init).
Proof. reflexivity. Qed.

(** Scenario C: the drift mode opens the visualization panel. *)
Example scenario_drift :
  log (snd (handleAsk 0 "show drift" Reference.drift_response init)) =
    [PostMessage 0 (MStatus "Thinking...");
     HttpRequest "POST" "http://localhost:8000/ask" (VObj [("question", VStr "show drift")]);
     CreateWebviewPanel 0 "archDriftViewer" "Architecture Drift"].
Proof. reflexivity. Qed.

(** The link text in the answer does the same, whatever its case. *)
Example scenario_link_text :
  log (snd (handleAsk_resume 0 "q"
              (postJson_settle
                 (Response (Some 200) [Reference.json "{'answer': 'Open the ArchDrift UI'}"]))
              init)) =
    [CreateWebviewPanel 0 "archDriftViewer" "Architecture Drift"].
Proof. reflexivity. Qed.

(** Scenario E: the open-chat command twice. *)
Example scenario_command_twice :
  let w2 := snd (ObservabilityPanel_createOrShow (snd (ObservabilityPanel_createOrShow init))) in
  currentPanel w2 = Some 0 /\ next_panel w2 = 1 /\
  log w2 = [CreateWebviewPanel 0 "observabilityAgent" "Observability Agent"; Reveal 0].
Proof. repeat split; reflexivity. Qed.

(** A response body [null] parses, and reading [mode] from it throws inside
    the [try]: the user sees the error message. *)
Example null_body_reported :
  log (snd (handleAsk_resume 0 "q" (postJson_settle (Response (Some 200) ["null"])) init)) =
    [PostMessage 0 (error_message "q" (null_read_error "mode"))].
Proof. reflexivity. Qed.

(** A message of a kind the handler does not know is ignored. *)
Example unknown_message_ignored :
  onDidReceiveMessage 0 (MkInbound (Some (VStr "ping")) None None) Reference.slow_reply init
    = (Normal tt, init).
Proof. reflexivity. Qed.

Example open_url_requested :
  onDidReceiveMessage 0
    (MkInbound (Some (VStr "openArchDrift")) None (Some (VStr "https://arch-drift.vercel.app/")))
    Reference.slow_reply init
  = (Normal tt, emit (OpenExternal ("https://arch-drift.vercel.app/"%string : uri)) init).
Proof. reflexivity. Qed.

End Runs.

(** * Further properties of the registry *)

Section RegistryProperties.
Context `{Host}.
Local Open Scope list_scope.

Local Abbreviation jsv := (jsval number).

(** X1: in every world the extension can get to, two open panels never have
    the same view type: there is at most one chat panel and at most one
    visualization panel. *)
Theorem one_open_panel_per_view_type (w : world) (p q : nat) (ip iq : webview_panel) :
  reachable w ->
  live w !! p = Some ip ->
  live w !! q = Some iq ->
  viewType ip = viewType iq ->
  p = q.
Proof.
  intros Hr Hp Hq Hv. pose proof (reachable_wf _ Hr) as Hwf.
  destruct (wf_live _ Hwf _ _ Hp) as [[-> Hcp]|[-> Hdp]];
    destruct (wf_live _ Hwf _ _ Hq) as [[-> Hcq]|[-> Hdq]];
    try discriminate Hv; congruence.
Qed.

(** X2: in every world the extension can get to, the panel a class has
    registered is still open and has that class's view type, so
    [createOrShow] never reveals a disposed panel. *)
Theorem registered_panel_is_open (k : kind) (w : world) (p : nat) :
  reachable w ->
  registered k w = Some p ->
  exists info, live w !! p = Some info /\ viewType info = kind_viewType k.
Proof.
  intros Hr Hp. pose proof (reachable_wf _ Hr) as Hwf.
  eexists. split; [exact (wf_registered_live _ _ _ Hwf Hp)|]. by destruct k.
Qed.

Lemma show_times_S (k : kind) (n : nat) (w : world) :
  show_times k (S n) w = snd (showOrReveal k (show_times k n w)).
Proof. reflexivity. Qed.

(** X3: from a world where no panel of the kind is registered, any number of
    requests in a row creates exactly one panel, on the first request, and
    every later request reveals that panel. *)
Theorem show_times_creates_once (k : kind) (n : nat) (w : world) :
  registered k w = None ->
  exists ttl,
    registered k (show_times k (S n) w) = Some (next_panel w) /\
    next_panel (show_times k (S n) w) = S (next_panel w) /\
    log (show_times k (S n) w) =
      log w ++ CreateWebviewPanel (next_panel w) (kind_viewType k) ttl
               :: replicate n (Reveal (next_panel w)).
Proof.
  intros Hnone.
  destruct (showOrReveal_unregistered _ _ Hnone) as (ttl & w1 & Hs & Hreg & _ & Hnext & Hlog).
  exists ttl. induction n as [|n IH].
  - rewrite show_times_S. simpl. rewrite Hs. simpl. by rewrite Hreg, Hnext, Hlog.
  - rewrite (show_times_S k (S n)).
    remember (show_times k (S n) w) as ws eqn:Ews. destruct IH as (IHr & IHn & IHl).
    rewrite (showOrReveal_registered _ _ _ IHr). simpl.
    split; [by destruct k|]. split; [done|].
    rewrite IHl, <- app_assoc. f_equal. simpl. f_equal.
    clear. induction n as [|n IH]; simpl; [done|]. by rewrite IH.
Qed.

(** X4: asking for the panel of one kind leaves the registration of the
    other kind as it was. *)
Theorem showOrReveal_other_kind (k k' : kind) (w : world) :
  k' <> k ->
  registered k' (snd (showOrReveal k w)) = registered k' w.
Proof.
  intros Hne. destruct k, k'; try done; simpl.
  - unfold ObservabilityPanel_createOrShow. by destruct (currentPanel w).
  - unfold ArchDriftPanel_createOrShow. by destruct (panels w !! panelKey).
Qed.

(** X5: closing the registered panel of one kind leaves the other kind's
    registration and every other open panel as they were. *)
Theorem dispose_leaves_other_kind (k k' : kind) (p : nat) (w : world) :
  wf w ->
  registered k w = Some p ->
  k' <> k ->
  registered k' (WebviewPanel_dispose p w) = registered k' w /\
  forall q, q <> p -> live (WebviewPanel_dispose p w) !! q = live w !! q.
Proof.
  intros Hwf Hp Hne. pose proof (wf_registered_live _ _ _ Hwf Hp) as Hlive.
  destruct k, k'; try done.
  - rewrite (WebviewPanel_dispose_chat _ _ Hlive). simpl. split; [done|].
    intros q Hq. by rewrite lookup_delete_ne.
  - rewrite (WebviewPanel_dispose_drift _ _ Hlive). simpl. split; [done|].
    intros q Hq. by rewrite lookup_delete_ne.
Qed.



(** X7: an exchange leaves the chat registration alone and closes no panel;
    the only panel it can add is the visualization panel. *)
Theorem handleAsk_keeps_panels (self : nat) (question : string) (net : net_outcome)
    (w : world) :
  wf w ->
  let w' := snd (handleAsk self question net w) in
  currentPanel w' = currentPanel w /\
  (forall p info, live w !! p = Some info -> live w' !! p = Some info) /\
  (forall p info, live w' !! p = Some info ->
                  live w !! p = Some info \/ info = drift_panel).
Proof.
  intros Hwf w'. subst w'.
  assert (forall w0 : world, wf w0 ->
            currentPanel (snd (ArchDriftPanel_createOrShow w0)) = currentPanel w0 /\
            (forall p info, live w0 !! p = Some info ->
                            live (snd (ArchDriftPanel_createOrShow w0)) !! p = Some info) /\
            (forall p info, live (snd (ArchDriftPanel_createOrShow w0)) !! p = Some info ->
                            live w0 !! p = Some info \/ info = drift_panel)) as Hshow.
  { intros w0 Hwf0. unfold ArchDriftPanel_createOrShow.
    destruct (panels w0 !! panelKey) as [p0|]; simpl; [by auto|].
    pose proof (wf_next_not_live _ Hwf0) as Hnew.
    split; [done|]. split.
    - intros p info Hp. rewrite lookup_insert_ne; [done|]. intros <-. congruence.
    - intros p info Hp. destruct (decide (p = next_panel w0)) as [->|Hne].
      + rewrite lookup_insert_eq in Hp. injection Hp as <-. by right.
      + rewrite lookup_insert_ne in Hp by done. by left. }
  destruct (string_dec (trim question) EmptyString) as [E|E].
  { rewrite handleAsk_split, (handleAsk_begin_empty _ _ _ E). simpl. auto. }
  rewrite (handleAsk_unfold _ _ _ _ E).
  set (w0 := emit _ (emit _ w)).
  assert (wf w0) as Hwf0 by (subst w0; by do 2 apply wf_emit).
  destruct (handleAsk_resume_cases self (trim question) (postJson_settle net) w0)
    as [[e ->] | ->].
  - simpl. auto.
  - destruct (Hshow w0 Hwf0) as (Hc & Hl & Hr). subst w0. simpl in *. auto.
Qed.

End RegistryProperties.

(** * Further properties of the exchange and of the message handler *)

Section ExchangeProperties.
Context `{Host}.
Local Open Scope list_scope.

Local Abbreviation jsv := (jsval number).

Lemma append_String (c : ascii) (a b : string) :
  (String c a ++ b)%string = String c (a ++ b)%string.
Proof. reflexivity. Qed.

Lemma append_empty_l (b : string) : (EmptyString ++ b)%string = b.
Proof. reflexivity. Qed.

Lemma prefix_app_iff (n s : string) :
  String.prefix n s = true <-> exists post, s = (n ++ post)%string.
Proof.
  revert s. induction n as [|c n IH]; intros s.
  - split; [intros _; exists s; reflexivity | intros _; by destruct s].
  - destruct s as [|d s]; simpl.
    + split; [intros Hf; discriminate Hf | intros [post Hp]; discriminate Hp].
    + destruct (Ascii.ascii_dec c d) as [->|Hne].
      * rewrite IH. split; intros [post Hp]; exists post;
          rewrite append_String in *; congruence.
      * split; [done | intros [post Hp]; rewrite append_String in Hp; congruence].
Qed.

(** [includes] finds the needle exactly when the string is the needle with
    something before and something after. *)
Lemma includes_app_iff (s needle : string) :
  includes s needle = true <-> exists pre post, s = (pre ++ needle ++ post)%string.
Proof.
  induction s as [|c s IH].
  - change (includes EmptyString needle)
      with (String.prefix needle EmptyString || false).
    rewrite orb_true_iff, prefix_app_iff. split.
    + intros [[post Hp] | Hf]; [by exists EmptyString, post | discriminate Hf].
    + intros (pre & post & Hp). left.
      destruct pre; [by exists post | rewrite append_String in Hp; discriminate Hp].
  - change (includes (String c s) needle)
      with (String.prefix needle (String c s) || includes s needle).
    rewrite orb_true_iff, prefix_app_iff, IH. split.
    + intros [[post Hp] | (pre & post & Hp)].
      * by exists EmptyString, post.
      * exists (String c pre), post. by rewrite append_String, Hp.
    + intros (pre & post & Hp). destruct pre as [|d pre].
      * left. by exists post.
      * right. exists pre, post. rewrite append_String in Hp. congruence.
Qed.

(** X8: when [mode] is not the drift flag, a string answer is a redirect
    exactly when its lower-case form has ['archdrift ui'] somewhere in it:
    at the start, in the middle or at the end. *)
Theorem link_text_anywhere_redirects (mode : option jsv) (a : string) :
  mode <> Some (VStr "arch_drift") ->
  isArchDrift mode (Some (VStr a)) = true <->
  exists pre post, toLowerCase a = (pre ++ "archdrift ui" ++ post)%string.
Proof.
  intros Hm. rewrite isArchDrift_true, <- includes_app_iff. split.
  - intros [Hc | (a' & [= <-] & Hi)]; [by destruct Hm | done].
  - intros Hi. right. by exists a.
Qed.

(** X9: a reply that parses to a number, a string, a boolean or an array has
    none of the fields read from it: the exchange ends with an answer
    message whose answer is the empty string and whose other fields are
    [null], even when the reply is itself a string holding the link text. *)
Theorem non_object_reply_answered_empty (self : nat) (tq : string) (data : jsv) (w : world) :
  data <> VNull ->
  (forall props, data <> VObj props) ->
  handleAsk_resume self tq (Normal data) w =
    (Normal tt,
     emit (PostMessage self (MAnswer tq (VStr EmptyString) VNull VNull VNull VNull)) w).
Proof.
  intros Hn Ho. rewrite (handleAsk_resume_resolved _ _ _ _ Hn).
  destruct data as [ | b | n | s | items | props ]; try done.
  by destruct (Ho props).
Qed.

Lemma terminal_message_posted (self : nat) (tq : string) (settled : completion jsv)
    (m : out_msg) (w : world) :
  terminal_message tq settled = Some m ->
  handleAsk_resume self tq settled w = (Normal tt, emit (PostMessage self m) w).
Proof.
  destruct settled as [data | err]; simpl.
  - destruct data as [ | b | n | s | items | props ].
    { intros [= <-]. apply handleAsk_resume_null. }
    all: intros Hm; rewrite handleAsk_resume_resolved by discriminate.
    all: match goal with |- context [isArchDrift ?x ?y] => destruct (isArchDrift x y) end.
    all: first [ discriminate Hm | by injection Hm as <- ].
  - intros [= <-]. apply handleAsk_resume_rejected.
Qed.

(** X10: a reply whose body is the JSON text [null] (any body [JSON.parse]
    turns into [null]) is not answered: reading [mode] of it throws inside
    the [try], and the user gets the could-not-reach error with the
    [TypeError] text although the service replied. *)
Theorem null_reply_reported_as_unreachable (self : nat) (question : string)
    (statusCode : nat) (chunks : list string) (w : world) :
  trim question <> EmptyString ->
  statusCode < 400 ->
  collect chunks <> EmptyString ->
  JSON_parse (collect chunks) = inr VNull ->
  handleAsk self question (Response (Some statusCode) chunks) w =
    (Normal tt,
     emit (PostMessage self
             (MError (trim question)
                (unreachable_prefix ++ "Cannot read properties of null (reading 'mode')")%string))
       (emit (request_event (trim question))
          (emit (PostMessage self (MStatus "Thinking...")) w))).
Proof.
  intros Hq Hc Hne Hp. rewrite (handleAsk_unfold _ _ _ _ Hq). simpl postJson_settle.
  rewrite (on_end_below_400 _ _ Hc).
  apply string_truthy_true in Hne. rewrite Hne, Hp. simpl call.
  by rewrite handleAsk_resume_null.
Qed.

(** X11: an [ask] message whose [text] is not a string makes the handler
    throw before anything is done: [question.trim()] is outside the [try], so
    no status, no request and no error message follow. *)
Theorem ask_without_text_throws (self : nat) (text url : option jsv) (net : net_outcome)
    (w : world) :
  (forall q, text <> Some (VStr q)) ->
  exists err,
    onDidReceiveMessage self (MkInbound (Some (VStr "ask")) text url) net w = (Throw err, w).
Proof.
  intros Hq. unfold onDidReceiveMessage. simpl. unfold bind, lift.
  destruct text as [[ | b | n | s | items | props ]|]; simpl; try by eexists.
  by destruct (Hq s).
Qed.

(** X12: a message whose [type] is neither ['ask'] nor ['openArchDrift'],
    or is missing or not a string, is ignored: the handler returns with the
    world unchanged. *)
Theorem other_message_ignored (self : nat) (message : inbound) (net : net_outcome)
    (w : world) :
  msg_type message <> Some (VStr "ask") ->
  msg_type message <> Some (VStr "openArchDrift") ->
  onDidReceiveMessage self message net w = (Normal tt, w).
Proof.
  intros Ha Ho. unfold onDidReceiveMessage.
  destruct (msg_type message) as [[ | b | n | t | items | props ]|]; try done.
  destruct (String.eqb_spec t "ask") as [->|_]; [done|].
  destruct (String.eqb_spec t "openArchDrift") as [->|_]; done.
Qed.






(** X14: two exchanges that overlap are not put in order: when the second
    question's request settles first, its answer or error is posted before
    the first question's, after both statuses. *)
Theorem overlapping_exchanges_completion_order (self : nat) (q1 q2 : string)
    (s1 s2 : completion jsv) (m1 m2 : out_msg) (w : world) :
  trim q1 <> EmptyString ->
  trim q2 <> EmptyString ->
  terminal_message (trim q1) s1 = Some m1 ->
  terminal_message (trim q2) s2 = Some m2 ->
  let w1 := snd (handleAsk_begin self q1 w) in
  let w2 := snd (handleAsk_begin self q2 w1) in
  let w3 := snd (handleAsk_resume self (trim q2) s2 w2) in
  let w4 := snd (handleAsk_resume self (trim q1) s1 w3) in
  log w4 = log w ++ [PostMessage self (MStatus "Thinking..."); request_event (trim q1);
                     PostMessage self (MStatus "Thinking..."); request_event (trim q2);
                     PostMessage self m2; PostMessage self m1].
Proof.
  intros H1 H2 Hm1 Hm2 w1 w2 w3 w4. subst w1 w2 w3 w4.
  rewrite (handleAsk_begin_nonempty _ _ _ H1). simpl snd.
  rewrite (handleAsk_begin_nonempty _ _ _ H2). simpl snd.
  rewrite (terminal_message_posted _ _ _ _ _ Hm2). simpl snd.
  rewrite (terminal_message_posted _ _ _ _ _ Hm1). simpl.
  by rewrite <- !app_assoc.
Qed.

End ExchangeProperties.

(** * getNonce *)

Section NonceProperties.

Lemma length_append (a b : string) :
  String.length (a ++ b)%string = String.length a + String.length b.
Proof. induction a as [|x a IH]; simpl; [done | by rewrite IH]. Qed.

Lemma get_in_range (s : string) (n : nat) :
  n < String.length s -> exists c, String.get n s = Some c.
Proof.
  revert n. induction s as [|x s IH]; intros n Hn; simpl in Hn; [lia|].
  destruct n as [|n]; simpl; [by eexists|]. apply IH. lia.
Qed.

Lemma get_some_in_range (s : string) (n : nat) (c : ascii) :
  String.get n s = Some c -> n < String.length s.
Proof.
  revert n. induction s as [|x s IH]; intros n Hn; simpl in *; [by destruct n|].
  destruct n as [|n]; [lia|]. apply IH in Hn. lia.
Qed.

Lemma possible_letters_and_digits (n : nat) (c : ascii) :
  String.get n possible = Some c -> is_letter_or_digit c = true.
Proof.
  intros Hg. pose proof (get_some_in_range _ _ _ Hg) as Hn.
  change (String.length possible) with 62 in Hn.
  do 62 (destruct n as [|n]; [injection Hg as <-; reflexivity|]). lia.
Qed.

Lemma getNonce_loop_spec (index : nat -> nat) (count i : nat) (text : string) :
  (forall j, j < count -> index (i + j) < 62) ->
  String.length (getNonce_loop count i index text) = String.length text + count /\
  (forall k, k < String.length text ->
             String.get k (getNonce_loop count i index text) = String.get k text) /\
  (forall j, j < count ->
             String.get (String.length text + j) (getNonce_loop count i index text)
             = String.get (index (i + j)) possible).
Proof.
  revert i text. induction count as [|count IH]; intros i text Hr; simpl.
  - split; [lia|]. split; [done | intros j Hj; lia].
  - assert (index i < 62) as Hi by (rewrite <- (Nat.add_0_r i); apply Hr; lia).
    destruct (get_in_range possible (index i) Hi) as [c Hc].
    assert (charAt possible (index i) = String c EmptyString) as Hch
      by (unfold charAt; by rewrite Hc).
    destruct (IH (S i) (text ++ charAt possible (index i))%string) as (Hlen & Hold & Hnew).
    { intros j Hj. replace (S i + j) with (i + S j) by lia. apply Hr. lia. }
    rewrite length_append, Hch in *. simpl in *.
    split; [lia|]. split.
    + intros k Hk. rewrite Hold by lia. symmetry. by apply append_correct1.
    + intros j Hj. destruct j as [|j].
      * rewrite !Nat.add_0_r, Hold by lia.
        pose proof (append_correct2 text (String c EmptyString) 0) as Ha.
        simpl in Ha. by rewrite <- Ha, Hc.
      * replace (String.length text + S j) with (String.length text + 1 + j) by lia.
        rewrite Hnew by lia. by replace (i + S j) with (S (i + j)) by lia.
Qed.

(** X15: when every index drawn is below 62 (the length of the alphabet, as
    [Math.floor(Math.random() * 62)] is), the nonce has 32 characters, its
    k-th character is the alphabet's character at the k-th index drawn, and
    every character is a letter or a digit. *)
Theorem getNonce_shape (index : nat -> nat) :
  (forall j, j < 32 -> index j < 62) ->
  String.length (getNonce index) = 32 /\
  (forall k, k < 32 -> String.get k (getNonce index) = String.get (index k) possible) /\
  (forall k c, String.get k (getNonce index) = Some c -> is_letter_or_digit c = true).
Proof.
  intros Hr. unfold getNonce.
  destruct (getNonce_loop_spec index 32 0 EmptyString Hr) as (Hlen & _ & Hnew).
  change (String.length EmptyString + 32) with 32 in Hlen.
  assert (forall k, k < 32 ->
            String.get k (getNonce_loop 32 0 index EmptyString)
            = String.get (index k) possible) as Hget by exact Hnew.
  split; [exact Hlen|]. split; [exact Hget|].
  intros k c Hg. pose proof (get_some_in_range _ _ _ Hg) as Hk. rewrite Hlen in Hk.
  rewrite (Hget k Hk) in Hg. by apply possible_letters_and_digits in Hg.
Qed.

End NonceProperties.

(** * The chat webview and the extension together *)

Section WebviewProperties.
Context `{Host}.
Local Open Scope list_scope.

Local Abbreviation jsv := (jsval number).

Variable ToString : jsv -> string.

Lemma handleAsk_returns_normally (self : nat) (question : string) (net : net_outcome)
    (w : world) :
  fst (handleAsk self question net w) = Normal tt.
Proof.
  destruct (string_dec (trim question) EmptyString) as [E|E].
  - by rewrite handleAsk_split, (handleAsk_begin_empty _ _ _ E).
  - rewrite (handleAsk_unfold _ _ _ _ E).
    by destruct (handleAsk_resume_one_event self (trim question) (postJson_settle net)
                   (emit (request_event (trim question))
                      (emit (PostMessage self (MStatus "Thinking...")) w)))
      as (last & w' & -> & _).
Qed.

Lemma sendCurrentInput_blank (pg : page) :
  trim (input_value pg) = EmptyString -> sendCurrentInput ToString pg = (pg, None).
Proof.
  intros Hb. unfold sendCurrentInput.
  destruct (input_value pg) eqn:E; simpl; by rewrite Hb.
Qed.

Lemma sendCurrentInput_text (pg : page) :
  trim (input_value pg) <> EmptyString ->
  sendCurrentInput ToString pg =
    (MkPage EmptyString
       (messages pg ++
          [MkBubble "message user" (ToString (VStr (trim (input_value pg))))]),
     Some (MkInbound (Some (VStr "ask")) (Some (VStr (trim (input_value pg)))) None)).
Proof.
  intros Hb. apply string_truthy_true in Hb. unfold sendCurrentInput.
  assert ((if string_truthy (input_value pg) then input_value pg else EmptyString)
          = input_value pg) as -> by (by destruct (input_value pg)).
  rewrite Hb. simpl. unfold appendMessage, or_else. simpl. by rewrite Hb.
Qed.

(** X16: the script sends nothing for a blank input and leaves the page as it
    is (the input is not cleared); otherwise it shows the trimmed text in a
    user bubble, clears the input and posts an [ask] message with that text,
    and the extension's handler returns normally on every message the script
    posts. *)
Theorem webview_messages_are_handled (pg : page) :
  (trim (input_value pg) = EmptyString /\ sendCurrentInput ToString pg = (pg, None)) \/
  (exists value pg' message,
      sendCurrentInput ToString pg = (pg', Some message) /\
      value = trim (input_value pg) /\ value <> EmptyString /\
      message = MkInbound (Some (VStr "ask")) (Some (VStr value)) None /\
      input_value pg' = EmptyString /\
      messages pg' = messages pg ++ [MkBubble "message user" (ToString (VStr value))] /\
      forall self net w, fst (onDidReceiveMessage self message net w) = Normal tt).
Proof.
  destruct (string_dec (trim (input_value pg)) EmptyString) as [E|E].
  - left. split; [done|]. by apply sendCurrentInput_blank.
  - right. eexists _, _, _. split; [by apply sendCurrentInput_text|].
    repeat split; try done.
    intros self net w. apply handleAsk_returns_normally.
Qed.

Lemma posted_to_self (self : nat) (m : out_msg) (rest : list event) :
  posted_to self (PostMessage self m :: rest) = m :: posted_to self rest.
Proof. simpl. by rewrite Nat.eqb_refl. Qed.

(** X17: for an input that trims to a non-empty text which [trim] leaves as
    it is, the text shown in the user bubble is the question sent to the
    service, and the webview is sent the status and then the message that
    ends the exchange, if there is one (nothing more on a redirect). *)
Theorem question_shown_is_question_asked (self : nat) (pg : page) (net : net_outcome)
    (w : world) :
  let value := trim (input_value pg) in
  value <> EmptyString ->
  trim value = value ->
  exists pg' message evs,
    sendCurrentInput ToString pg = (pg', Some message) /\
    messages pg' = messages pg ++ [MkBubble "message user" (ToString (VStr value))] /\
    log (snd (onDidReceiveMessage self message net w)) = log w ++ evs /\
    In (request_event value) evs /\
    posted_to self evs =
      MStatus "Thinking..." ::
      match terminal_message value (postJson_settle net) with
      | Some m => [m]
      | None => []
      end.
Proof.
  intros value Hv Hid.
  eexists _, _. rewrite (sendCurrentInput_text _ Hv). fold value.
  assert (onDidReceiveMessage self
            (MkInbound (Some (VStr "ask")) (Some (VStr value)) None) net w
          = handleAsk self value net w) as -> by reflexivity.
  assert (trim value <> EmptyString) as Hv' by (by rewrite Hid).
  rewrite (handleAsk_unfold _ _ _ _ Hv'), Hid.
  set (w0 := emit (request_event value) (emit (PostMessage self (MStatus "Thinking...")) w)).
  destruct (terminal_message value (postJson_settle net)) as [m|] eqn:Em.
  - exists [PostMessage self (MStatus "Thinking..."); request_event value; PostMessage self m].
    rewrite (terminal_message_posted _ _ _ _ _ Em). subst w0. simpl.
    rewrite <- !app_assoc, !Nat.eqb_refl. simpl. repeat split; auto.
  - assert (exists p e w', handleAsk_resume self value (postJson_settle net) w0
                           = (Normal tt, w') /\
                           log w' = log w0 ++ [e] /\ shows_visualization p e)
      as (p & e & w' & -> & Hl & Hs).
    { destruct (postJson_settle net) as [data|err]; [|discriminate Em].
      assert (data <> VNull) as Hn by (intros ->; discriminate Em).
      assert (isArchDrift (read data "mode") (read data "answer") = true) as Hr.
      { simpl in Em. destruct data; try done;
          match goal with
          | _ : context [isArchDrift ?x ?y] |- _ => by destruct (isArchDrift x y)
          end. }
      destruct (handleAsk_resume_redirect self value data w0 Hn Hr)
        as (p & e & w' & ? & ? & ? & _). by exists p, e, w'. }
    exists [PostMessage self (MStatus "Thinking..."); request_event value; e].
    simpl snd. rewrite Hl. subst w0. simpl.
    rewrite <- !app_assoc, Nat.eqb_refl. simpl. repeat split; auto.
    by destruct Hs as [-> | ->].
Qed.

(** X18: when the request of an exchange fails, the webview, once it has
    received what the exchange posted, shows two more agent bubbles: the
    status and the error text in full (the text starts with the fixed
    prefix, so the script's fallback ["Error"] is not used). *)
Theorem failure_shown_in_webview (self : nat) (question : string) (net : net_outcome)
    (err : js_error) (w : world) (pg : page) :
  trim question <> EmptyString ->
  postJson_settle net = Throw err ->
  exists evs,
    log (snd (handleAsk self question net w)) = log w ++ evs /\
    receive_all ToString (posted_to self evs) pg =
      MkPage (input_value pg)
        (messages pg ++
           [MkBubble "message agent" (ToString (VStr "Thinking..."));
            MkBubble "message agent"
              (ToString (VStr (unreachable_prefix ++ cause_text err)%string))]).
Proof.
  intros Hq Hs.
  exists [PostMessage self (MStatus "Thinking..."); request_event (trim question);
          PostMessage self (error_message (trim question) err)].
  rewrite (handleAsk_unfold _ _ _ _ Hq), Hs, handleAsk_resume_rejected. simpl.
  rewrite <- !app_assoc, !Nat.eqb_refl. split; [done|].
  assert (string_truthy (unreachable_prefix ++ cause_text err)%string = true) as Ht
    by reflexivity.
  unfold receive_all. simpl. unfold appendMessage, or_else, truthy. rewrite Ht. simpl.
  by rewrite <- app_assoc.
Qed.

(** X19: a reply that is not a redirect and whose answer is missing or falsy
    (the empty string, [0], [false]) is passed on by the extension as it is
    ([null] and a missing answer as the empty string) and shown by the
    webview as the bubble of the empty string. *)
Theorem blank_answer_bubble (self : nat) (tq : string) (data : jsv) (w : world) (pg : page) :
  data <> VNull ->
  isArchDrift (read data "mode") (read data "answer") = false ->
  truthy (nullish_or (read data "answer") (VStr EmptyString)) = false ->
  handleAsk_resume self tq (Normal data) w =
    (Normal tt, emit (PostMessage self (answer_message tq data)) w) /\
  onWindowMessage ToString (Some (answer_message tq data)) pg =
    MkPage (input_value pg)
      (messages pg ++ [MkBubble "message agent" (ToString (VStr EmptyString))]).
Proof.
  intros Hn Hr Hf. split.
  - by rewrite (handleAsk_resume_resolved _ _ _ _ Hn), Hr.
  - simpl. unfold appendMessage, or_else. by rewrite Hf.
Qed.

End WebviewProperties.

(** * The further properties on concrete runs, with the reference host *)

Section MoreRuns.
Local Open Scope list_scope.
Local Existing Instance Reference.host.

Lemma one_open_panel_per_view_type_witness :
  let w := snd (ObservabilityPanel_createOrShow init) in
  reachable w /\ live w !! 0 = Some chat_panel /\
  forall q iq, live w !! q = Some iq -> viewType chat_panel = viewType iq -> 0 = q.
Proof.
  assert (reachable (snd (ObservabilityPanel_createOrShow init))) as Hr
    by (apply rtc_once; apply step_command).
  split; [exact Hr|]. split; [reflexivity|].
  intros q iq Hq Hv.
  exact (one_open_panel_per_view_type (H := Reference.host)
           (snd (ObservabilityPanel_createOrShow init)) 0 q chat_panel iq Hr eq_refl Hq Hv).
Defined.

Lemma registered_panel_is_open_witness :
  let w := snd (ObservabilityPanel_createOrShow init) in
  reachable w /\ registered Chat w = Some 0 /\
  exists info, live w !! 0 = Some info /\ viewType info = "observabilityAgent".
Proof.
  assert (reachable (snd (ObservabilityPanel_createOrShow init))) as Hr
    by (apply rtc_once; apply step_command).
  split; [exact Hr|]. split; [reflexivity|].
  exact (registered_panel_is_open (H := Reference.host) Chat
           (snd (ObservabilityPanel_createOrShow init)) 0 Hr eq_refl).
Defined.

Lemma show_times_creates_once_witness :
  registered Chat init = None /\
  exists ttl,
    registered Chat (show_times Chat 3 init) = Some 0 /\
    next_panel (show_times Chat 3 init) = 1 /\
    log (show_times Chat 3 init) =
      [CreateWebviewPanel 0 "observabilityAgent" ttl; Reveal 0; Reveal 0].
Proof.
  split; [reflexivity|].
  exact (show_times_creates_once (H := Reference.host) Chat 2 init eq_refl).
Defined.

Lemma showOrReveal_other_kind_witness :
  Visualization <> Chat /\
  registered Visualization (snd (showOrReveal Chat init)) = registered Visualization init.
Proof.
  split; [discriminate|].
  exact (showOrReveal_other_kind (H := Reference.host) Chat Visualization init
           ltac:(discriminate)).
Defined.

Lemma dispose_leaves_other_kind_witness :
  let w := snd (showOrReveal Visualization (snd (showOrReveal Chat init))) in
  wf w /\ registered Chat w = Some 0 /\ Visualization <> Chat /\
  registered Visualization (WebviewPanel_dispose 0 w) = registered Visualization w /\
  forall q, q <> 0 -> live (WebviewPanel_dispose 0 w) !! q = live w !! q.
Proof.
  pose proof (wf_ArchDriftPanel_createOrShow (H := Reference.host) _
                (wf_ObservabilityPanel_createOrShow init wf_init)) as Hwf.
  split; [exact Hwf|]. split; [reflexivity|]. split; [discriminate|].
  exact (dispose_leaves_other_kind (H := Reference.host) Chat Visualization 0 _ Hwf eq_refl
           ltac:(discriminate)).
Defined.

Lemma handleAsk_keeps_panels_witness :
  let w' := snd (handleAsk 0 "show drift" Reference.drift_response init) in
  wf init /\
  currentPanel w' = currentPanel init /\
  (forall p info, live init !! p = Some info -> live w' !! p = Some info) /\
  (forall p info, live w' !! p = Some info ->
                  live init !! p = Some info \/ info = drift_panel).
Proof.
  split; [exact wf_init|].
  exact (handleAsk_keeps_panels (H := Reference.host) 0 "show drift"
           Reference.drift_response init wf_init).
Defined.

Lemma link_text_anywhere_redirects_witness :
  (None : option (jsval string)) <> Some (VStr "arch_drift") /\
  (isArchDrift None (Some (VStr "See the ArchDrift UI here")) = true <->
   exists pre post,
     toLowerCase "See the ArchDrift UI here" = (pre ++ "archdrift ui" ++ post)%string).
Proof.
  split; [discriminate|].
  exact (link_text_anywhere_redirects (H := Reference.host) None
           "See the ArchDrift UI here" ltac:(discriminate)).
Defined.

Lemma non_object_reply_answered_empty_witness :
  (VStr "archdrift ui" : jsval string) <> VNull /\
  (forall props, (VStr "archdrift ui" : jsval string) <> VObj props) /\
  handleAsk_resume 0 "q" (Normal (VStr "archdrift ui")) init =
    (Normal tt,
     emit (PostMessage 0 (MAnswer "q" (VStr EmptyString) VNull VNull VNull VNull)) init).
Proof.
  split; [discriminate|]. split; [discriminate|].
  exact (non_object_reply_answered_empty (H := Reference.host) 0 "q" (VStr "archdrift ui")
           init ltac:(discriminate) ltac:(discriminate)).
Defined.

Lemma null_reply_reported_as_unreachable_witness :
  trim "hi" <> EmptyString /\ 200 < 400 /\ collect ["null"] <> EmptyString /\
  JSON_parse (collect ["null"]) = inr VNull /\
  handleAsk 0 "hi" (Response (Some 200) ["null"]) init =
    (Normal tt,
     emit (PostMessage 0
             (MError "hi"
                (unreachable_prefix ++ "Cannot read properties of null (reading 'mode')")%string))
       (emit (request_event "hi") (emit (PostMessage 0 (MStatus "Thinking...")) init))).
Proof.
  split; [cbv; discriminate|]. split; [lia|]. split; [cbv; discriminate|].
  split; [reflexivity|].
  exact (null_reply_reported_as_unreachable (H := Reference.host) 0 "hi" 200 ["null"] init
           ltac:(cbv; discriminate) ltac:(lia) ltac:(cbv; discriminate) eq_refl).
Defined.

Lemma ask_without_text_throws_witness :
  (forall q, (None : option (jsval string)) <> Some (VStr q)) /\
  exists err,
    onDidReceiveMessage 0 (MkInbound (Some (VStr "ask")) None None)
      Reference.slow_reply init = (Throw err, init).
Proof.
  split; [discriminate|].
  exact (ask_without_text_throws (H := Reference.host) 0 None None Reference.slow_reply init
           ltac:(discriminate)).
Defined.

Lemma other_message_ignored_witness :
  let message : inbound := MkInbound (Some (VStr "ping")) None None in
  msg_type message <> Some (VStr "ask") /\
  msg_type message <> Some (VStr "openArchDrift") /\
  onDidReceiveMessage 0 message Reference.slow_reply init = (Normal tt, init).
Proof.
  split; [discriminate|]. split; [discriminate|].
  exact (other_message_ignored (H := Reference.host) 0
           (MkInbound (Some (VStr "ping")) None None) Reference.slow_reply init
           ltac:(discriminate) ltac:(discriminate)).
Defined.

Lemma overlapping_exchanges_completion_order_witness :
  let s1 : completion (jsval string) := Throw Reference.refused in
  let s2 : completion (jsval string) := Normal (VObj [("answer", VStr "two")]) in
  let m1 := error_message "first" Reference.refused in
  let m2 := answer_message "second" (VObj [("answer", VStr "two")]) in
  trim "first" <> EmptyString /\ trim "second" <> EmptyString /\
  terminal_message (trim "first") s1 = Some m1 /\
  terminal_message (trim "second") s2 = Some m2 /\
  log (snd (handleAsk_resume 0 (trim "first") s1
              (snd (handleAsk_resume 0 (trim "second") s2
                      (snd (handleAsk_begin 0 "second"
                              (snd (handleAsk_begin 0 "first" init)))))))) =
    log init ++ [PostMessage 0 (MStatus "Thinking..."); request_event (trim "first");
                 PostMessage 0 (MStatus "Thinking..."); request_event (trim "second");
                 PostMessage 0 m2; PostMessage 0 m1].
Proof.
  split; [cbv; discriminate|]. split; [cbv; discriminate|].
  split; [reflexivity|]. split; [reflexivity|].
  exact (overlapping_exchanges_completion_order (H := Reference.host) 0 "first" "second"
           (Throw Reference.refused) (Normal (VObj [("answer", VStr "two")]))
           _ _ init ltac:(cbv; discriminate) ltac:(cbv; discriminate) eq_refl eq_refl).
Defined.

Lemma getNonce_shape_witness :
  let index := fun j => (j * 7) mod 62 in
  (forall j, j < 32 -> index j < 62) /\
  String.length (getNonce index) = 32 /\
  (forall k, k < 32 -> String.get k (getNonce index) = String.get (index k) possible) /\
  (forall k c, String.get k (getNonce index) = Some c -> is_letter_or_digit c = true).
Proof.
  assert (forall j, j < 32 -> (j * 7) mod 62 < 62) as Hr
    by (intros j _; apply Nat.mod_upper_bound; lia).
  split; [exact Hr|].
  exact (getNonce_shape (fun j => (j * 7) mod 62) Hr).
Defined.

Lemma question_shown_is_question_asked_witness :
  let pg := MkPage "  Why is my app slow?  " [] in
  trim (input_value pg) <> EmptyString /\
  trim (trim (input_value pg)) = trim (input_value pg) /\
  exists pg' message evs,
    sendCurrentInput Reference.to_text pg = (pg', Some message) /\
    messages pg' = messages pg ++ [MkBubble "message user" "Why is my app slow?"] /\
    log (snd (onDidReceiveMessage 0 message Reference.slow_reply init)) = log init ++ evs /\
    In (request_event "Why is my app slow?") evs /\
    posted_to 0 evs =
      MStatus "Thinking..." ::
      match terminal_message "Why is my app slow?" (postJson_settle Reference.slow_reply) with
      | Some m => [m]
      | None => []
      end.
Proof.
  split; [cbv; discriminate|]. split; [reflexivity|].
  exact (question_shown_is_question_asked (H := Reference.host) Reference.to_text 0
           (MkPage "  Why is my app slow?  " []) Reference.slow_reply init
           ltac:(cbv; discriminate) eq_refl).
Defined.

Lemma failure_shown_in_webview_witness :
  trim "ping" <> EmptyString /\
  postJson_settle (RequestError Reference.refused) = Throw Reference.refused /\
  exists evs,
    log (snd (handleAsk 0 "ping" (RequestError Reference.refused) init)) = log init ++ evs /\
    receive_all Reference.to_text (posted_to 0 evs) (MkPage EmptyString []) =
      MkPage EmptyString
        [MkBubble "message agent" "Thinking...";
         MkBubble "message agent"
           (unreachable_prefix ++ "connect ECONNREFUSED 127.0.0.1:8000")%string].
Proof.
  split; [cbv; discriminate|]. split; [reflexivity|].
  exact (failure_shown_in_webview (H := Reference.host) Reference.to_text 0 "ping"
           (RequestError Reference.refused) Reference.refused init (MkPage EmptyString [])
           ltac:(cbv; discriminate) eq_refl).
Defined.

Lemma blank_answer_bubble_witness :
  let data : jsval string := VObj [("answer", VNum "0"%string)] in
  data <> VNull /\
  isArchDrift (read data "mode") (read data "answer") = false /\
  truthy (nullish_or (read data "answer") (VStr EmptyString)) = false /\
  handleAsk_resume 0 "q" (Normal data) init =
    (Normal tt, emit (PostMessage 0 (answer_message "q" data)) init) /\
  onWindowMessage Reference.to_text (Some (answer_message "q" data)) (MkPage EmptyString []) =
    MkPage EmptyString [MkBubble "message agent" EmptyString].
Proof.
  split; [discriminate|]. split; [reflexivity|]. split; [reflexivity|].
  exact (blank_answer_bubble (H := Reference.host) Reference.to_text 0 "q"
           (VObj [("answer", VNum "0"%string)]) init (MkPage EmptyString [])
           ltac:(discriminate) eq_refl eq_refl).
Defined.

End MoreRuns.

(** * Redirects in a row, and what the webview keeps *)

Section MoreComposition.
Context `{Host}.
Local Open Scope list_scope.

Local Abbreviation jsv := (jsval number).

Variable ToString : jsv -> string.

(** X20: two exchanges in a row that both end in a redirect show the
    visualization panel twice but create at most one: the second exchange
    reveals the panel the first one revealed or created. *)
Theorem second_redirect_reveals (self : nat) (q1 q2 : string) (n1 n2 : net_outcome)
    (d1 d2 : jsv) (w : world) :
  trim q1 <> EmptyString -> trim q2 <> EmptyString ->
  postJson_settle n1 = Normal d1 -> postJson_settle n2 = Normal d2 ->
  d1 <> VNull -> d2 <> VNull ->
  isArchDrift (read d1 "mode") (read d1 "answer") = true ->
  isArchDrift (read d2 "mode") (read d2 "answer") = true ->
  let w2 := snd (handleAsk self q2 n2 (snd (handleAsk self q1 n1 w))) in
  exists p shown,
    shows_visualization p shown /\
    panels w2 !! panelKey = Some p /\
    log w2 = log w ++ [PostMessage self (MStatus "Thinking..."); request_event (trim q1); shown;
                       PostMessage self (MStatus "Thinking..."); request_event (trim q2);
                       Reveal p].
Proof.
  intros Hq1 Hq2 Hs1 Hs2 Hd1 Hd2 Hr1 Hr2 w2. subst w2.
  rewrite (handleAsk_unfold _ _ _ _ Hq1), Hs1.
  destruct (handleAsk_resume_redirect self (trim q1) d1
              (emit (request_event (trim q1))
                 (emit (PostMessage self (MStatus "Thinking...")) w)) Hd1 Hr1)
    as (p & shown & w1 & -> & Hl1 & Hsh & Hp1 & _).
  simpl snd. simpl in Hl1.
  rewrite (handleAsk_unfold _ _ _ _ Hq2), Hs2.
  rewrite (handleAsk_resume_resolved _ _ _ _ Hd2), Hr2.
  unfold ArchDriftPanel_createOrShow. simpl panels. rewrite Hp1.
  exists p, shown. split; [done|]. split; [done|].
  simpl. rewrite Hl1. by rewrite <- !app_assoc.
Qed.

Lemma onWindowMessage_appends_one (m : out_msg) (pg : page) :
  input_value (onWindowMessage ToString (Some m) pg) = input_value pg /\
  exists b, messages (onWindowMessage ToString (Some m) pg) = messages pg ++ [b].
Proof. destruct m; simpl; split; try done; by eexists. Qed.

(** X21: whatever messages the extension posts, the webview only adds
    bubbles: the bubbles it had stay first and in order, each message adds
    exactly one, and the text being typed in the input is left alone. *)
Theorem incoming_messages_only_append (ms : list out_msg) (pg : page) :
  input_value (receive_all ToString ms pg) = input_value pg /\
  exists added,
    messages (receive_all ToString ms pg) = messages pg ++ added /\
    length added = length ms.
Proof.
  revert pg. induction ms as [|m ms IH]; intros pg.
  - split; [done|]. exists []. by rewrite app_nil_r.
  - change (receive_all ToString (m :: ms) pg)
      with (receive_all ToString ms (onWindowMessage ToString (Some m) pg)).
    destruct (IH (onWindowMessage ToString (Some m) pg)) as (Hi & added & Hm & Hlen).
    destruct (onWindowMessage_appends_one m pg) as (Hi1 & b & Hb).
    split; [by rewrite Hi|].
    exists (b :: added). rewrite Hm, Hb, <- app_assoc. split; [done|].
    simpl. by rewrite Hlen.
Qed.

End MoreComposition.

Section MoreRuns2.
Local Open Scope list_scope.
Local Existing Instance Reference.host.

Lemma second_redirect_reveals_witness :
  let reply : jsval string := VObj [("mode", VStr "arch_drift")] in
  trim "one" <> EmptyString /\ trim "two" <> EmptyString /\
  postJson_settle Reference.drift_response = Normal reply /\
  reply <> VNull /\
  isArchDrift (read reply "mode") (read reply "answer") = true /\
  exists p shown,
    shows_visualization p shown /\
    panels (snd (handleAsk 0 "two" Reference.drift_response
                   (snd (handleAsk 0 "one" Reference.drift_response init)))) !! panelKey
    = Some p /\
    log (snd (handleAsk 0 "two" Reference.drift_response
                (snd (handleAsk 0 "one" Reference.drift_response init)))) =
      log init ++ [PostMessage 0 (MStatus "Thinking..."); request_event (trim "one"); shown;
                   PostMessage 0 (MStatus "Thinking..."); request_event (trim "two");
                   Reveal p].
Proof.
  split; [cbv; discriminate|]. split; [cbv; discriminate|]. split; [reflexivity|].
  split; [discriminate|]. split; [reflexivity|].
  exact (second_redirect_reveals (H := Reference.host) 0 "one" "two"
           Reference.drift_response Reference.drift_response
           (VObj [("mode", VStr "arch_drift")]) (VObj [("mode", VStr "arch_drift")]) init
           ltac:(cbv; discriminate) ltac:(cbv; discriminate) eq_refl eq_refl
           ltac:(discriminate) ltac:(discriminate) eq_refl eq_refl).
Defined.

End MoreRuns2.
